(** * CraftJS bootstrap layer: module loader ([require]) and frame filter

    A shallow embedding of [core/src/boot/require.ts] and of the frame filter
    of [core/src/boot/errors.ts].

    - Java [Path] values are modelled by their name elements, the way
      [sun.nio.fs.UnixPath] keeps them: no empty element, [.] and [..] kept.
      The strings handed to [Path] are path strings (no NUL character), for
      which [PathType.of] and [resolve] do not raise.
    - The host (file system, [Packages] namespace graph, script evaluation,
      [JSON.parse]) is a record of functions, fixed while a [require] runs;
      the loader is a function of it.
    - Script values are references: the loader allocates the objects
      [exports = {}] and [module = { exports }] and the cache stores
      references, so the identity of what [require] returns is observable.
    - A module body is a tree of the actions that the loader can observe:
      assigning [module.exports], calling [require], raising, returning.
    - [__require] is recursive through module bodies and a circular require
      does not terminate, so the embedding takes a fuel argument that bounds
      the nesting depth of [require] calls.
    - Specifiers are strings other than the names of the properties that an
      object literal inherits ([constructor], [toString], ...: the list
      [inherited]), for which [overrides[id]] is not a string and the call
      of [name.split] in [resolvePackage] raises a [TypeError].
    - The state carries a log of what [__require] does from
      [stack.push(entrypoint)] on. What the resolution does before that
      (probing the file system, reading a manifest) changes nothing of the
      loader and is not logged. *)

From Stdlib Require Import ZArith Ascii.
From stdpp Require Import gmap strings list pretty.

(** ** JavaScript strings *)

Module Js.

(** [s.split(sep)] for a one character separator: never an empty list. *)
Fixpoint split (sep : ascii) (s : string) : list string :=
  match s with
  | EmptyString => [EmptyString]
  | String c s' =>
      if Ascii.eqb c sep then EmptyString :: split sep s'
      else match split sep s' with
           | [] => [String c EmptyString]
           | h :: t => String c h :: t
           end
  end.

(** [s.startsWith(p)] *)
Definition startsWith (s p : string) : bool := String.prefix p s.

(** [s[0]] *)
Definition head (s : string) : option ascii :=
  match s with
  | EmptyString => None
  | String c _ => Some c
  end.

(** Truthiness of a string: only the empty string is falsy. *)
Definition truthy (s : string) : bool :=
  match s with
  | EmptyString => false
  | String _ _ => true
  end.

(** [a ?? b] on an optional value. *)
Definition nullish {A} (a : option A) (b : A) : A :=
  match a with
  | Some x => x
  | None => b
  end.

(** The number of characters of [s] other than [sep]. *)
Fixpoint count_other (sep : ascii) (s : string) : nat :=
  match s with
  | EmptyString => 0
  | String c s' => (if Ascii.eqb c sep then 0 else 1) + count_other sep s'
  end.

(** [s.includes(c)] for a character [c]. *)
Fixpoint includes (s : string) (c : ascii) : bool :=
  match s with
  | EmptyString => false
  | String d s' => Ascii.eqb d c || includes s' c
  end.

End Js.

(** ** java.nio.file.Path *)

Record Path := MkPath { absolute : bool; names : list string }.

Global Instance Path_eq_dec : EqDecision Path.
Proof. solve_decision. Defined.

Module PathType.

(** [Path.of(s)] ([of] is reserved): the name elements are the non-empty
    pieces between slashes; the path is absolute when [s] starts with a
    slash. *)
Definition of_string (s : string) : Path :=
  {| absolute := bool_decide (Js.head s = Some "/"%char);
     names := filter (λ n, n ≠ EmptyString) (Js.split "/" s) |}.

(** [p.resolve(q)] for a path [q]. *)
Definition resolvePath (p q : Path) : Path :=
  if absolute q then q
  else {| absolute := absolute p; names := names p ++ names q |}.

(** [p.resolve(s)] for a string [s]. *)
Definition resolve (p : Path) (s : string) : Path := resolvePath p (of_string s).

(** [p.getParent()], [None] for Java's [null]. *)
Definition parent (p : Path) : option Path :=
  match names p with
  | [] => None
  | [_] => if absolute p then Some {| absolute := true; names := [] |} else None
  | ns => Some {| absolute := absolute p; names := removelast ns |}
  end.

(** [p.toString()] *)
Definition toString (p : Path) : string :=
  (if absolute p then "/" else "") +:+ String.concat "/" (names p).

End PathType.

(** ** Stack frames and the frame filter ([errors.ts]) *)

Record FrameInfo := {
  javaFrame : bool;
  plugin : string;
  source : string;
  methodName : string;
  fileName : string;
  line : Z
}.

(** JS sources that should be hidden from stack traces. *)
Definition hiddenScripts : gset string :=
  {[ "entrypoint"; "dist/boot/errors.js"; "dist/boot/require.js";
     "dist/boot/sourcemap.js" ]}.

Definition hiddenClasses : gset string :=
  {[ "fi.valtakausi.craftjs.api.CraftJsContext";
     "fi.valtakausi.craftjs.api.JavaInterop";
     "org.graalvm.polyglot.Context";
     "com.oracle.truffle.polyglot.FunctionProxyHandler" ]}.

Section FrameFilter.

(** Truthiness of [__interop.systemProperty('craftjs.trace.allFrames')],
    read once when the script is loaded. *)
Variable showAllFrames : bool.

(** Checks if the given frame should be emitted in stack trace. *)
Definition shouldEmitFrame (frame : FrameInfo) : bool :=
  if showAllFrames then true
  else if javaFrame frame then
    if bool_decide (source frame ∈ hiddenClasses) then false
    else if Js.startsWith (source frame) "com.sun.proxy" then false
    else true
  else
    if bool_decide (source frame ∈ hiddenScripts) then false
    else true.

(** The frames that the loop of [formatError] does not skip. *)
Definition emittedFrames (stack : list FrameInfo) : list FrameInfo :=
  filter (λ f, shouldEmitFrame f = true) stack.

End FrameFilter.

(** ** Script values, errors and module bodies ([require.ts]) *)

(** A handle on a node of the host's [Packages] namespace graph. *)
Definition JavaPackage := nat.

(** Script values, as far as the loader can tell them apart. [VExports r]
    and [VModule r] are the two objects allocated by the [r]-th load:
    [exports = {}] and [module = { exports }]. *)
Inductive value :=
| VPackage (pkg : JavaPackage)
| VModule (ref : nat)
| VExports (ref : nat)
| VScript (n : nat).

Global Instance value_eq_dec : EqDecision value.
Proof. solve_decision. Defined.

(** A thrown value other than [null] and [undefined], by the properties that
    the loader sets or reads; [None] for a property that is [undefined]. *)
Record JsError := {
  error_name : option string;
  error_message : option string;
  error_fileName : option string;
  error_lineNumber : option Z
}.

Inductive nullish := null | undefined.

(** What a [throw] statement can raise. *)
Inductive thrown :=
| Nullish (n : nullish)
| Error (e : JsError).

(** The error of reading [property] of [null] or of [undefined]. *)
Definition TypeError (property : string) (n : nullish) : JsError :=
  {| error_name := Some "TypeError";
     error_message :=
       Some ("Cannot read property '" +:+ property +:+ "' of " +:+
             match n with null => "null" | undefined => "undefined" end);
     error_fileName := None; error_lineNumber := None |}.

(** [new ModuleNotFoundError(module, parent)]; [parent] is [None] for
    [null]. *)
Definition ModuleNotFoundError (module : string) (parent : option Path) : JsError :=
  {| error_name := Some "ModuleNotFoundError";
     error_message :=
       Some ("Module '" +:+ module +:+ "' could not be resolved from " +:+
             match parent with
             | Some p => PathType.toString p
             | None => "null"
             end);
     error_fileName := None; error_lineNumber := None |}.

(** What a call of [require] gives its caller. What [__require] raises
    itself is always an error object. *)
Inductive outcome :=
| Returned (v : value)
| Threw (e : JsError).

(** A module body, as the loader observes it. [Require id relative k] calls
    [require(id, relative)] and goes on with [k] on what the call gave: a
    body that does not catch has [k (Threw e) = Throw (Error e)]. *)
Inductive body :=
| Return_
| Throw (t : thrown)
| AssignExports (v : value) (k : body)
| Require (id : string) (relative : option string) (k : outcome -> body).

(** Bodies that raise error objects only. *)
Inductive throws_objects : body -> Prop :=
| throws_objects_return : throws_objects Return_
| throws_objects_throw e : throws_objects (Throw (Error e))
| throws_objects_assign v k :
    throws_objects k -> throws_objects (AssignExports v k)
| throws_objects_require id relative k :
    (forall o, throws_objects (k o)) -> throws_objects (Require id relative k).

(** The function [(function(module, exports, __filename, __dirname){...})]. *)
Definition script := value -> value -> string -> string -> body.

(** What [__require] does to the outside world from [stack.push(entrypoint)]
    on: [ReadString] is the read of the entrypoint, [FilesType.readString(entrypoint)].
    The probes of the resolution and the read of a manifest in
    [getEntrypoint] come before and are not events. *)
Inductive event :=
| ReadString (p : Path)
| Evaluate (closure : string)
| Call (filename dirname : string)
| PatchError (entrypoint : Path) (contents : string) (error : JsError) (line : Z)
| ConsoleLog (what : option string) (line : option Z)
| ConsoleError (error : JsError).

(** The entrypoints whose text the loader read, in order. *)
Definition reads (t : list event) : list Path :=
  omap (λ e, match e with ReadString p => Some p | _ => None end) t.

(** The host of the script runtime. A function that can raise returns the
    error on the left. *)
Record Host := {
  (** the root of the namespace graph *)
  Packages : JavaPackage;
  (** [pkg[part]] when it is an [instanceof PackageType] *)
  member : JavaPackage -> string -> option JavaPackage;
  Files_exists : Path -> bool;
  Files_isDirectory : Path -> bool;
  Files_readString : Path -> JsError + string;
  (** [JSON.parse(text).main] of a manifest [{ main?: string }] *)
  JSON_parse_main : string -> JsError + option string;
  __craftjscore : Path;
  pluginRoot : Path;
  (** [__craftjs.eval(closure)] *)
  eval : string -> JsError + script
}.

(** The module-level state of [require.ts], the allocation counter of the
    script heap and the log of the events of the loader. *)
Record state := {
  cache : gmap string value;
  stack : list Path;
  allocated : nat;
  trace : list event
}.

Definition cache_set (key : string) (v : value) (st : state) : state :=
  {| cache := <[key := v]> (cache st); stack := stack st;
     allocated := allocated st; trace := trace st |}.

Definition stack_push (p : Path) (st : state) : state :=
  {| cache := cache st; stack := stack st ++ [p];
     allocated := allocated st; trace := trace st |}.

(** [stack.pop()]: nothing happens on an empty array. *)
Definition stack_pop (st : state) : state :=
  {| cache := cache st; stack := removelast (stack st);
     allocated := allocated st; trace := trace st |}.

Definition alloc (st : state) : state :=
  {| cache := cache st; stack := stack st;
     allocated := S (allocated st); trace := trace st |}.

Definition emit (e : event) (st : state) : state :=
  {| cache := cache st; stack := stack st;
     allocated := allocated st; trace := trace st ++ [e] |}.

(** Created empty at runtime bootstrap. *)
Definition initial : state :=
  {| cache := ∅; stack := []; allocated := 0; trace := [] |}.

Definition overrides : gmap string string :=
  <["path" := "path-browserify"]> (<["tty" := "tty-browserify"]> ∅).

(** [id = overrides[id] ?? id], on the table's own properties. *)
Definition override (id : string) : string := Js.nullish (overrides !! id) id.

(** The names of the properties that the object literal [overrides] inherits
    from [Object.prototype]. For such an [id] the value of [overrides[id]]
    is a function or an object, not [undefined]: [id] stops being a string,
    and unless the key made of it is cached, [name.split] raises a
    [TypeError] in [resolvePackage]. On every other string [override] is
    what line 124 does. *)
Definition inherited : list string :=
  [ "constructor"; "__proto__"; "hasOwnProperty"; "isPrototypeOf";
    "propertyIsEnumerable"; "toLocaleString"; "toString"; "valueOf";
    "__defineGetter__"; "__defineSetter__"; "__lookupGetter__";
    "__lookupSetter__" ].

(** [(relative ?? '/') + id] *)
Definition cacheId (relative : option string) (id : string) : string :=
  Js.nullish relative "/" +:+ id.

(** The text handed to [__craftjs.eval]. *)
Definition closure (contents : string) : string :=
  String "010" "  (function(module, exports, __filename, __dirname){" +:+
  String "010" contents +:+ String "010" "  })" +:+ String "010" "  ".

(** [error.lineNumber ? error.lineNumber - 2 : -1] *)
Definition errorLine (error : JsError) : Z :=
  match error_lineNumber error with
  | Some n => if (n =? 0)%Z then (-1)%Z else (n - 2)%Z
  | None => (-1)%Z
  end.

(** Modelled from the spec: [patchError] is declared outside [require.ts];
    the loader hands it the error for the log and the call does not raise.
    Its effect is the event that records its arguments. *)
Definition patchError (entrypoint : Path) (contents : string) (error : JsError)
    (line : Z) (st : state) : state :=
  emit (PatchError entrypoint contents error line) st.

(** The [catch] block of [__require]: on [null] and [undefined] reading
    [error.lineNumber] raises; any other value is patched and logged. *)
Definition catch (entrypoint : Path) (contents : string) (error : thrown)
    (st : state) : JsError + state :=
  match error with
  | Nullish n => inl (TypeError "lineNumber" n)
  | Error error =>
      let line := errorLine error in
      let st := patchError entrypoint contents error line st in
      let st :=
        emit (ConsoleLog (match error_fileName error with
                          | Some f => Some f
                          | None => error_name error
                          end)
                         (error_lineNumber error)) st in
      inr (emit (ConsoleError error) st)
  end.

(** Runs a module body. [req] is [require]; [exports] is the current value
    of [module.exports]. Gives [module.exports] and what the body raised. *)
Fixpoint run (req : string -> option string -> state -> option (outcome * state))
    (b : body) (exports : value) (st : state)
    : option (value * option thrown * state) :=
  match b with
  | Return_ => Some (exports, None, st)
  | Throw t => Some (exports, Some t, st)
  | AssignExports v k => run req k v st
  | Require id relative k =>
      match req id relative st with
      | None => None
      | Some (o, st') => run req (k o) exports st'
      end
  end.

Section Loader.

Variable host : Host.

(** The loop of [resolvePackage], from [pkg] on. *)
Fixpoint walk (pkg : JavaPackage) (parts : list string) : option JavaPackage :=
  match parts with
  | [] => Some pkg
  | part :: parts' =>
      match member host pkg part with
      | Some child => walk child parts'
      | None => None
      end
  end.

(** Gets a GraalJS representation of Java package from its name. *)
Definition resolvePackage (name : string) : option JavaPackage :=
  walk (Packages host) (Js.split "." name).

(** Resolves the entrypoint of a Node module. *)
Definition getEntrypoint (module : Path) : JsError + option Path :=
  let fallback :=
    let entrypoint := PathType.resolve module "index.js" in
    if Files_exists host entrypoint then inr (Some entrypoint) else inr None in
  let packageJson := PathType.resolve module "package.json" in
  if Files_exists host packageJson then
    match Files_readString host packageJson with
    | inl e => inl e
    | inr text =>
        match JSON_parse_main host text with
        | inl e => inl e
        | inr (Some main) =>
            if Js.truthy main then inr (Some (PathType.resolve module main))
            else fallback
        | inr None => fallback
        end
    end
  else fallback.

(** Resolves a Node module of current plugin. *)
Definition resolveNodeModule (name : string) : JsError + option Path :=
  let modules := PathType.resolve (pluginRoot host) "node_modules" in
  if negb (Files_isDirectory host modules) then inr None
  else getEntrypoint (PathType.resolve modules name).

(** Resolves a JS/TS module. [parent] is [None] for [null]. *)
Definition resolveModule (parent : option Path) (name : string)
    : JsError + option Path :=
  if bool_decide (name = "craftjs") then inr (Some (__craftjscore host))
  else if negb (bool_decide (Js.head name = Some "."%char)) then
    resolveNodeModule name
  else
    match parent with
    | None => inl (TypeError "resolve" null)
    | Some parent =>
        let module := PathType.resolve parent (name +:+ ".js") in
        if Files_exists host module then inr (Some module) else inr None
    end.

(** The parent folder of the required thing: the given path, or the
    directory of the entrypoint on top of the stack, or [dist]. *)
Definition requestingDir (relative : option string) (stack : list Path)
    : option Path :=
  let current :=
    match last stack with
    | None => Some (PathType.resolve (pluginRoot host) "dist")
    | Some top => PathType.parent top
    end in
  match relative with
  | Some r => if Js.truthy r then Some (PathType.of_string r) else current
  | None => current
  end.

(** The rest of [__require] once the entrypoint is resolved (from
    [stack.push(entrypoint)] on): pushes it on the stack, reads, wraps,
    evaluates and executes it, caches the module and pops the stack. [req]
    is the [require] that the body calls. *)
Definition load (req : string -> option string -> state -> option (outcome * state))
    (cacheId : string) (entrypoint : Path) (st : state)
    : option (outcome * state) :=
  let st := stack_push entrypoint st in
  let ref := allocated st in
  let st := alloc st in
  let st := emit (ReadString entrypoint) st in
  match Files_readString host entrypoint with
  | inl e => Some (Threw e, st)
  | inr contents =>
      let tried :=
        let st := emit (Evaluate (closure contents)) st in
        match eval host (closure contents) with
        | inl error => Some (VExports ref, Some (Error error), st)
        | inr func =>
            let filename := PathType.toString entrypoint in
            let dirname :=
              Js.nullish (PathType.toString <$> PathType.parent entrypoint) "." in
            run req (func (VModule ref) (VExports ref) filename dirname)
              (VExports ref) (emit (Call filename dirname) st)
        end in
      match tried with
      | None => None
      | Some (exports, raised, st) =>
          let caught :=
            match raised with
            | Some error => catch entrypoint contents error st
            | None => inr st
            end in
          match caught with
          | inl e => Some (Threw e, st)
          | inr st =>
              let st := cache_set cacheId (VModule ref) st in
              let st := stack_pop st in
              Some (Returned exports, st)
          end
      end
  end.

(** [require(id, relative)]. [fuel] bounds the nesting of [require] calls;
    [None] when it runs out. *)
Fixpoint __require (fuel : nat) (id : string) (relative : option string)
    (st : state) : option (outcome * state) :=
  match fuel with
  | 0 => None
  | S fuel' =>
      let id := override id in
      let cacheId := cacheId relative id in
      match cache st !! cacheId with
      | Some cached => Some (Returned cached, st)
      | None =>
          match resolvePackage id with
          | Some pkg =>
              Some (Returned (VPackage pkg), cache_set cacheId (VPackage pkg) st)
          | None =>
              let parent := requestingDir relative (stack st) in
              match resolveModule parent id with
              | inl e => Some (Threw e, st)
              | inr None => Some (Threw (ModuleNotFoundError id parent), st)
              | inr (Some entrypoint) =>
                  load (__require fuel') cacheId entrypoint st
              end
          end
      end
  end.

End Loader.

(** The hosts on which the stack discipline holds: every file that
    resolution gives can be read, and bodies raise error objects only. *)
Definition well_behaved (host : Host) : Prop :=
  (∀ (parent : option Path) (id : string) (p : Path),
     resolveModule host parent id = inr (Some p) →
     ∃ text : string, Files_readString host p = inr text)
  ∧ (∀ (text : string) (func : script) (module exports : value)
       (filename dirname : string),
       eval host text = inr func →
       throws_objects (func module exports filename dirname)).

(** ** A concrete plugin

    Small hosts on which the loader can be run. The plugin lives in
    [/plugin]; the namespace graph has [java], [java.lang] and
    [java.util]. *)

Module Demo.

Definition dist (file : string) : Path :=
  PathType.of_string ("/plugin/dist/./" +:+ file).

Definition node_modules (file : string) : Path :=
  PathType.of_string ("/plugin/node_modules/" +:+ file).

(** The directory of the compiled scripts. *)
Definition dist_dir : Path := PathType.of_string "/plugin/dist".

Definition core : Path := PathType.of_string "/plugin/core/index.js".

Definition NoSuchFileException (p : Path) : JsError :=
  {| error_name := Some "java.nio.file.NoSuchFileException";
     error_message := Some (PathType.toString p);
     error_fileName := None; error_lineNumber := None |}.

Definition SyntaxError : JsError :=
  {| error_name := Some "SyntaxError";
     error_message := Some "Unexpected end of JSON input";
     error_fileName := None; error_lineNumber := None |}.

Definition Boom : JsError :=
  {| error_name := Some "Error"; error_message := Some "boom";
     error_fileName := Some "boom.js"; error_lineNumber := Some 3%Z |}.

(** The body [require(id)]: it does not catch what [require] raises. *)
Definition requiring (id : string) : body :=
  Require id None
    (λ o, match o with Returned _ => Return_ | Threw e => Throw (Error e) end).

Definition lookup {A} (key : string) (table : list (string * A)) : option A :=
  match list_find (λ entry, entry.1 = key) table with
  | Some (_, (_, a)) => Some a
  | None => None
  end.

Definition lookup_file (files : list (Path * string)) (p : Path) : option string :=
  match list_find (λ f, f.1 = p) files with
  | Some (_, (_, text)) => Some text
  | None => None
  end.

(** A plugin with the given files; [modules] says whether it has a
    [node_modules] directory; [bodies] gives what the text of a file does
    when executed (nothing when not listed). *)
Definition plugin (files : list (Path * string)) (modules : bool)
    (bodies : list (string * body)) : Host :=
  {| Packages := 0;
     member := λ pkg part,
       if bool_decide (pkg = 0 ∧ part = "java") then Some 1
       else if bool_decide (pkg = 1 ∧ part = "lang") then Some 2
       else if bool_decide (pkg = 1 ∧ part = "util") then Some 3
       else None;
     Files_exists := λ p, bool_decide (is_Some (lookup_file files p));
     Files_isDirectory := λ p,
       modules && bool_decide (p = PathType.of_string "/plugin/node_modules");
     Files_readString := λ p,
       match lookup_file files p with
       | Some text => inr text
       | None => inl (NoSuchFileException p)
       end;
     JSON_parse_main := λ text,
       if bool_decide (text = "{ main: lib.js }") then inr (Some "lib.js")
       else if bool_decide (text = "{ main: }") then inr (Some "")
       else if bool_decide (text = "{}") then inr None
       else inl SyntaxError;
     __craftjscore := core;
     pluginRoot := PathType.of_string "/plugin";
     eval := λ text,
       inr (λ _ _ _ _,
         Js.nullish (lookup text (prod_map closure id <$> bodies)) Return_) |}.

(** The files of the plugin, under the paths that resolution builds for
    them ([resolve] keeps the [.] of a relative specifier), and their text.
    [pkg] declares a main file [lib.js] that is missing, [empty] declares an
    empty main, the manifest of [broken] is not JSON. *)
Definition files : list (Path * string) :=
  [ (core, "core");
    (dist "foo.js", "foo");
    (dist "a.js", "a");
    (dist "util.js", "util");
    (dist "sub/b.js", "b");
    (dist "sub/./util.js", "sub/util");
    (dist "boom.js", "boom");
    (dist "null.js", "null");
    (node_modules "pkg/package.json", "{ main: lib.js }");
    (node_modules "empty/package.json", "{ main: }");
    (node_modules "empty/index.js", "empty");
    (node_modules "broken/package.json", "{");
    (node_modules "broken/index.js", "broken");
    (node_modules "plain/index.js", "plain");
    (node_modules "path-browserify/index.js", "path-browserify") ].

(** What the scripts do, by their text: [a.js] requires [pkg], [sub/b.js]
    requires ["./util"], [boom.js] throws an error, [null.js] throws
    [null]; the others return at once. *)
Definition bodies : list (string * body) :=
  [ ("a", requiring "pkg");
    ("b", requiring "./util");
    ("boom", Throw (Error Boom));
    ("null", Throw (Nullish null)) ].

Definition host : Host := plugin files true bodies.

(** A plugin without dependencies whose files raise error objects only. *)
Definition bare : Host :=
  plugin [ (core, "core"); (dist "foo.js", "foo"); (dist "boom.js", "boom") ]
    false [ ("boom", Throw (Error Boom)) ].

End Demo.

(** ** The error formatter ([errors.ts]) *)

Module JsString.

(** [s.substring(n)] *)
Fixpoint substring (s : string) (n : nat) : string :=
  match n, s with
  | S n', String _ s' => substring s' n'
  | _, _ => s
  end.

(** Whether [s] has a match of a pattern that is the literal text [p], as in
    [s.match(/\.test\.js/g)] and [s.match('node_modules')]. *)
Fixpoint matches (s p : string) : bool :=
  String.prefix p s ||
  match s with
  | EmptyString => false
  | String _ s' => matches s' p
  end.

End JsString.

(** The class [JsError] of [errors.ts]: what [__interop.catchError] hands
    over. [message] is [None] for [null]. *)
Module Caught.

Record JsError := {
  name : string;
  message : option string;
  stack : list FrameInfo
}.

End Caught.

(** The type [SourceLine] of the source maps. *)
Module SourceLine.

Record t := { file : string; line : Z }.

End SourceLine.

(** What [log.warn] and [log.error] wrote. *)
Inductive logged :=
| LogWarn (text : string)
| LogError (text : string).

(** What [errors.ts] takes from its surroundings. A call that can raise
    returns the error on the left. [mapLineToSource] is [None] when
    ['mapLineToSource' in globalThis] is false. *)
Record Runtime := {
  allFrames : bool;
  mapLineToSource : option (string -> string -> Z -> JsError + SourceLine.t);
  getPluginRoot : string -> JsError + Path;
  (** [p.relativize(q)] and [p.normalize()] of [java.nio.file.Path] *)
  Path_relativize : Path -> Path -> JsError + Path;
  Path_normalize : Path -> Path
}.

Definition newline : string := String "010" EmptyString.

(** The first line of [formatError]: the name, and the message when it is
    truthy. *)
Definition formatHeader (error : Caught.JsError) : string :=
  match Caught.message error with
  | Some m =>
      if Js.truthy m then Caught.name error +:+ ": " +:+ m +:+ newline
      else Caught.name error +:+ newline
  | None => Caught.name error +:+ newline
  end.

(** "Figure out original source file and line" in the loop of
    [formatError]: the warnings logged, the line and the file name to
    show. *)
Definition locateFrame (rt : Runtime) (frame : FrameInfo)
    : JsError + (list logged * SourceLine.t * string) :=
  let raw := {| SourceLine.file := source frame; SourceLine.line := line frame |} in
  if javaFrame frame then inr ([], raw, fileName frame)
  else
    match mapLineToSource rt with
    | Some map =>
        match map (plugin frame) (source frame) (line frame) with
        | inl e => inl e
        | inr mapped =>
            match getPluginRoot rt (plugin frame) with
            | inl e => inl e
            | inr pluginRoot =>
                let distDir := PathType.resolve pluginRoot "dist" in
                match Path_relativize rt pluginRoot
                        (Path_normalize rt
                           (PathType.resolve distDir (SourceLine.file mapped))) with
                | inl e => inl e
                | inr relative =>
                    let file := PathType.toString relative in
                    let file :=
                      if Js.startsWith file "../" then JsString.substring file 3
                      else file in
                    let fileName :=
                      Js.nullish (last (Js.split "/" file)) (fileName frame) in
                    inr ([], {| SourceLine.file := file;
                                SourceLine.line := SourceLine.line mapped |},
                         fileName)
                end
            end
        end
    | None =>
        inr ([LogWarn "Error in early startup, source maps do not work"],
             raw, fileName frame)
    end.

(** The line that [formatError] adds for a frame. Line numbers are
    integers, printed in decimal. *)
Definition formatLine (frame : FrameInfo) (l : SourceLine.t) (fileName : string)
    : string :=
  "        at " +:+ SourceLine.file l +:+ " " +:+ methodName frame +:+ "(" +:+
  fileName +:+ ":" +:+ pretty (SourceLine.line l) +:+ ") [" +:+ plugin frame +:+
  "]" +:+ newline.

(** The line of a frame that is shown as the trace has it. *)
Definition rawLine (frame : FrameInfo) : string :=
  formatLine frame
    {| SourceLine.file := source frame; SourceLine.line := line frame |}
    (fileName frame).

(** The loop of [formatError] over the frames left, with the log and the
    text so far. When a call raises, what was logged stays logged. *)
Fixpoint formatFrames (rt : Runtime) (frames : list FrameInfo)
    (log : list logged) (text : string) : list logged * (JsError + string) :=
  match frames with
  | [] => (log, inr text)
  | frame :: frames' =>
      if negb (shouldEmitFrame (allFrames rt) frame) then
        formatFrames rt frames' log text
      else
        match locateFrame rt frame with
        | inl e => (log, inl e)
        | inr (warnings, l, fileName) =>
            formatFrames rt frames' (log ++ warnings)
              (text +:+ formatLine frame l fileName)
        end
  end.

(** Formats error for logging. *)
Definition formatError (rt : Runtime) (error : Caught.JsError)
    : list logged * (JsError + string) :=
  formatFrames rt (Caught.stack error) [] (formatHeader error).

(** [handleError(func, msg)], where [caught] is what
    [__interop.catchError(func)] gave ([None] for no error). *)
Definition handleError (rt : Runtime) (caught : option Caught.JsError)
    (msg : string) : list logged * (JsError + bool) :=
  match caught with
  | Some error =>
      let '(log, text) := formatError rt error in
      match text with
      | inl e => (LogError msg :: log, inl e)
      | inr text => (LogError msg :: log ++ [LogError text], inr true)
      end
  | None => ([], inr false)
  end.

(** The frame with another [fileName]. *)
Definition setFileName (name : string) (frame : FrameInfo) : FrameInfo :=
  {| javaFrame := javaFrame frame; plugin := plugin frame;
     source := source frame; methodName := methodName frame;
     fileName := name; line := line frame |}.

(** The warning of [formatError] for a script frame without source maps. *)
Definition earlyStartup : logged :=
  LogWarn "Error in early startup, source maps do not work".

(** A trace and two runtimes to format it with: one at early startup, one
    with source maps (whose paths are already relative to the plugin
    root). *)
Module DemoTrace.

Definition hostFrame : FrameInfo :=
  {| javaFrame := true; plugin := "demo"; source := "org.bukkit.Server";
     methodName := "start"; fileName := "Server.java"; line := 10 |}.

Definition hiddenFrame : FrameInfo :=
  {| javaFrame := true; plugin := "demo"; source := "org.graalvm.polyglot.Context";
     methodName := "eval"; fileName := "Context.java"; line := 4 |}.

Definition scriptFrame : FrameInfo :=
  {| javaFrame := false; plugin := "demo"; source := "dist/index.js";
     methodName := "main"; fileName := "index.js"; line := 7 |}.

Definition error : Caught.JsError :=
  {| Caught.name := "TypeError"; Caught.message := Some "x is undefined";
     Caught.stack := [scriptFrame; hiddenFrame; hostFrame] |}.

Definition early : Runtime :=
  {| allFrames := false; mapLineToSource := None;
     getPluginRoot := λ _, inr (PathType.of_string "/plugin");
     Path_relativize := λ _ q, inr q; Path_normalize := λ p, p |}.

Definition mapped : Runtime :=
  {| allFrames := false;
     mapLineToSource :=
       Some (λ _ _ _, inr {| SourceLine.file := "index.ts"; SourceLine.line := 3 |});
     getPluginRoot := λ _, inr (PathType.of_string "/plugin");
     Path_relativize := λ _ _, inr (PathType.of_string "../src/index.ts");
     Path_normalize := λ p, p |}.

End DemoTrace.

(** ** The test runner *)

Module TestRunner.

(** A [java.io.File] with what the runner asks of it: a file that is not a
    directory, or a directory with what [listFiles()] gives ([None] for
    [null], on an I/O error). *)
#[warnings="-register-all"]
Inductive File :=
| Regular (name path : string)
| Directory (name path : string) (files : option (list File)).

Definition getName (f : File) : string :=
  match f with
  | Regular name _ => name
  | Directory name _ _ => name
  end.

Definition getPath (f : File) : string :=
  match f with
  | Regular _ path => path
  | Directory _ path _ => path
  end.

(** [walk(file, callback)] for a callback that returns, on the state that
    the callback changes: the state reached and whether the walk raised
    (iterating over [null]). *)
Fixpoint walk {S : Type} (file : File) (callback : File -> S -> S) (s : S)
    : S * bool :=
  match file with
  | Regular _ _ => (callback file s, false)
  | Directory _ _ None => (s, true)
  | Directory _ _ (Some files) =>
      (fix each (fs : list File) (s : S) : S * bool :=
         match fs with
         | [] => (s, false)
         | f :: fs' =>
             let '(s', raised) := walk f callback s in
             if raised then (s', true) else each fs' s'
         end) files s
  end.

(** The callback of [runTests]: collects the files whose name matches
    [/\.test\.js/g] and whose path does not match ['node_modules']. *)
Definition collect (f : File) (testFiles : list File) : list File :=
  if negb (JsString.matches (getName f) ".test.js")
     || JsString.matches (getPath f) "node_modules"
  then testFiles
  else testFiles ++ [f].

(** The files that the callback keeps. *)
Definition isTest (f : File) : bool :=
  JsString.matches (getName f) ".test.js"
  && negb (JsString.matches (getPath f) "node_modules").

(** The array [testFiles] of [runTests] after the walk of [baseDir]. *)
Definition testFiles (baseDir : File) : list File * bool :=
  walk baseDir collect [].

(** The files under [file] that are not directories, left to right, up to
    the first directory that cannot be listed. *)
Fixpoint regularFiles (file : File) : list File * bool :=
  match file with
  | Regular _ _ => ([file], false)
  | Directory _ _ None => ([], true)
  | Directory _ _ (Some files) =>
      (fix each (fs : list File) : list File * bool :=
         match fs with
         | [] => ([], false)
         | f :: fs' =>
             let '(l, raised) := regularFiles f in
             if raised then (l, true)
             else let '(l', raised') := each fs' in (l ++ l', raised')
         end) files
  end.

(** A directory [js] to walk. *)
Definition demo : File :=
  Directory "js" "js"
    (Some [ Regular "a.test.js" "js/a.test.js";
            Directory "lib" "js/lib"
              (Some [ Regular "util.js" "js/lib/util.js";
                      Regular "report.test.json" "js/lib/report.test.json" ]);
            Directory "empty" "js/empty" (Some []);
            Directory "node_modules_old" "js/node_modules_old"
              (Some [ Regular "b.test.js" "js/node_modules_old/b.test.js" ]);
            Regular "z.test.js" "js/z.test.js" ]).

End TestRunner.

(** * Properties *)

(** ** Strings and paths *)

Lemma length_append (s t : string) :
  String.length (s +:+ t) = String.length s + String.length t.
Proof. induction s as [|c s IH]; simpl; [reflexivity | by rewrite IH]. Qed.

(** Appending the same suffix to different strings gives different strings. *)
Lemma append_inj_l (s1 s2 t : string) : s1 +:+ t = s2 +:+ t → s1 = s2.
Proof.
  revert s2. induction s1 as [|c s1 IH]; intros [|d s2] H; simpl in H.
  - reflexivity.
  - apply (f_equal String.length) in H. rewrite !length_append in H. simpl in H. lia.
  - apply (f_equal String.length) in H. rewrite !length_append in H. simpl in H. lia.
  - injection H as -> H. f_equal. by apply IH.
Qed.

Lemma head_append (s t : string) (c : ascii) :
  Js.head s = Some c → Js.head (s +:+ t) = Some c.
Proof. by destruct s. Qed.

Lemma count_other_append sep (s t : string) :
  Js.count_other sep (s +:+ t) = Js.count_other sep s + Js.count_other sep t.
Proof. induction s as [|c s IH]; simpl; [reflexivity | rewrite IH; lia]. Qed.

Lemma split_nonempty sep s : Js.split sep s ≠ [].
Proof. induction s as [|c s IH]; simpl; [done|]. destruct (Ascii.eqb c sep), (Js.split sep s); done. Qed.

(** The pieces of a split hold exactly the characters that are not the
    separator. *)
Lemma split_lengths sep s :
  sum_list (String.length <$> Js.split sep s) = Js.count_other sep s.
Proof.
  induction s as [|c s IH]; simpl; [reflexivity|].
  destruct (Ascii.eqb c sep); simpl; [exact IH|].
  pose proof (split_nonempty sep s) as Hne.
  destruct (Js.split sep s) as [|h t]; [done|]. simpl in *. lia.
Qed.

Lemma filter_nonempty_lengths (l : list string) :
  sum_list (String.length <$> filter (λ n, n ≠ EmptyString) l)
  = sum_list (String.length <$> l).
Proof.
  induction l as [|h t IH]; [reflexivity|].
  rewrite filter_cons. destruct (decide (h ≠ "")) as [Hh|Hh].
  - rewrite !fmap_cons. simpl. by rewrite IH.
  - apply dec_stable in Hh. subst h. rewrite fmap_cons. exact IH.
Qed.

(** A specifier whose first character is a dot names a relative path. *)
Lemma of_string_relative (s : string) :
  Js.head s = Some "."%char → absolute (PathType.of_string s) = false.
Proof. intros H. unfold PathType.of_string; simpl. rewrite H. reflexivity. Qed.

Lemma resolve_relative (p : Path) (s : string) :
  Js.head s = Some "."%char →
  PathType.resolve p s =
    {| absolute := absolute p; names := names p ++ names (PathType.of_string s) |}.
Proof.
  intros H. unfold PathType.resolve, PathType.resolvePath.
  by rewrite (of_string_relative s H).
Qed.

(** A string without the separator is its own single piece. *)
Lemma split_without sep (s : string) :
  Js.count_other sep s = String.length s → Js.split sep s = [s].
Proof.
  induction s as [|c s IH]; simpl; [reflexivity|].
  destruct (Ascii.eqb c sep) eqn:E; simpl; intros H.
  - assert (Js.count_other sep s ≤ String.length s); [|lia].
    clear. induction s as [|d s IH]; simpl; [lia|]. destruct (Ascii.eqb d sep); simpl; lia.
  - rewrite IH by lia. reflexivity.
Qed.

Lemma count_other_without (s : string) (c : ascii) :
  Js.includes s c = false → Js.count_other c s = String.length s.
Proof.
  induction s as [|d s IH]; simpl; [reflexivity|].
  destruct (Ascii.eqb d c); simpl; [discriminate|]. intros H. by rewrite IH.
Qed.

Lemma includes_append (s t : string) (c : ascii) :
  Js.includes (s +:+ t) c = Js.includes s c || Js.includes t c.
Proof. induction s as [|d s IH]; simpl; [reflexivity|]. by rewrite IH, orb_assoc. Qed.

(** [D.resolve("./" + foo + ".js")] is [D/./foo.js] when [foo] is a single
    name. *)
Lemma resolve_dot_slash (D : Path) (foo : string) :
  Js.includes foo "/" = false →
  PathType.resolve D ("./" +:+ foo +:+ ".js") =
    {| absolute := absolute D; names := names D ++ ["."; foo +:+ ".js"] |}.
Proof.
  intros Hfoo. rewrite resolve_relative by reflexivity. f_equal. f_equal.
  unfold PathType.of_string. simpl.
  rewrite split_without.
  - rewrite !filter_cons, filter_nil.
    destruct (decide ("." ≠ "")) as [_|[]]; [|done].
    change ("" +:+ foo +:+ ".js") with (foo +:+ ".js").
    destruct (decide (foo +:+ ".js" ≠ "")) as [_|H]; [reflexivity|].
    exfalso. apply H. intros E. apply (f_equal String.length) in E.
    rewrite length_append in E. simpl in E. lia.
  - apply count_other_without. change ("" +:+ foo +:+ ".js") with (foo +:+ ".js").
    rewrite includes_append, Hfoo. reflexivity.
Qed.

(** ** The frame filter *)

Lemma emittedFrames_all (stack : list FrameInfo) : emittedFrames true stack = stack.
Proof.
  unfold emittedFrames. induction stack as [|f l IH]; [reflexivity|].
  rewrite filter_cons_True by reflexivity. by rewrite IH.
Qed.

(** C9. The Frame Filter hides a frame exactly when the diagnostic override
    flag is inactive and the frame is either a host frame whose source is in
    the hidden-class set or starts with the internal-proxy prefix
    [com.sun.proxy], or a script frame whose source is in the hidden-script
    set. With the flag active every frame is emitted, so the formatter skips
    none. *)
Theorem shouldEmitFrame_hides_exactly (showAllFrames : bool) (frame : FrameInfo) :
  (shouldEmitFrame showAllFrames frame = false ↔
     showAllFrames = false ∧
     ((javaFrame frame = true ∧
       (source frame ∈ hiddenClasses ∨
        Js.startsWith (source frame) "com.sun.proxy" = true)) ∨
      (javaFrame frame = false ∧ source frame ∈ hiddenScripts)))
  ∧ shouldEmitFrame true frame = true
  ∧ (∀ stack : list FrameInfo, emittedFrames true stack = stack).
Proof.
  split; [|split; [reflexivity | apply emittedFrames_all]].
  unfold shouldEmitFrame. destruct showAllFrames.
  { split; [discriminate | intros [? _]; discriminate]. }
  destruct (javaFrame frame).
  - case_bool_decide as Hc.
    + split; [intros _ | reflexivity]. split; [reflexivity|]. left. auto.
    + destruct (Js.startsWith (source frame) "com.sun.proxy") eqn:Hp.
      * split; [intros _ | reflexivity]. split; [reflexivity|]. left. auto.
      * split; [discriminate|]. intros [_ [[_ [?|?]]|[? _]]]; congruence.
  - case_bool_decide as Hs.
    + split; [intros _ | reflexivity]. split; [reflexivity|]. right. auto.
    + split; [discriminate|]. intros [_ [[? _]|[_ ?]]]; congruence.
Qed.

(** ** The override table *)

Lemma override_unlisted (id : string) :
  id ≠ "path" → id ≠ "tty" → override id = id.
Proof.
  intros H1 H2. unfold override, overrides.
  rewrite lookup_insert_ne, lookup_insert_ne, lookup_empty by done. reflexivity.
Qed.

Lemma override_idempotent (id : string) : override (override id) = override id.
Proof.
  destruct (decide (id = "path")) as [->|H1]; [reflexivity|].
  destruct (decide (id = "tty")) as [->|H2]; [reflexivity|].
  by rewrite !(override_unlisted id).
Qed.


Lemma require_override (host : Host) (fuel : nat) (id : string)
    (relative : option string) (st : state) :
  __require host fuel id relative st = __require host fuel (override id) relative st.
Proof. destruct fuel; [reflexivity|]. simpl. by rewrite override_idempotent. Qed.

(** ** Relative specifiers *)

Lemma resolveModule_relative (host : Host) (parent : Path) (name : string) :
  Js.head name = Some "."%char →
  resolveModule host (Some parent) name =
    let module := PathType.resolve parent (name +:+ ".js") in
    inr (if Files_exists host module then Some module else None).
Proof.
  intros H. unfold resolveModule.
  rewrite bool_decide_eq_false_2 by (intros ->; discriminate).
  rewrite (bool_decide_eq_true_2 _ H). simpl.
  by destruct (Files_exists host _).
Qed.

(** Appending [.js] never gives back the path of the specifier itself. *)
Lemma resolve_js_differs (parent : Path) (name : string) :
  Js.head name = Some "."%char →
  PathType.resolve parent (name +:+ ".js") ≠ PathType.resolve parent name.
Proof.
  intros H E.
  rewrite !resolve_relative in E by auto using head_append.
  injection E as E. apply app_inv_head in E.
  apply (f_equal (λ l, sum_list (String.length <$> l))) in E. cbv beta in E.
  rewrite !filter_nonempty_lengths, !split_lengths, count_other_append in E.
  simpl in E. lia.
Qed.

(** C10. For a relative specifier (one whose first character is a dot) the
    resolver appends [.js] to the specifier, whatever it ends in, and
    resolves the result against the requesting directory: resolution gives
    that path when the file exists and nothing otherwise. The path is never
    the one the specifier itself names: ["./foo.js"] is looked up as
    [foo.js.js] and resolves only if that file exists. *)
Theorem resolveModule_appends_js (host : Host) (parent : Path) (name : string) :
  Js.head name = Some "."%char →
  let module := PathType.resolve parent (name +:+ ".js") in
  resolveModule host (Some parent) name
    = inr (if Files_exists host module then Some module else None)
  ∧ (∀ p : Path, resolveModule host (Some parent) name = inr (Some p) →
       p = module ∧ Files_exists host module = true)
  ∧ module ≠ PathType.resolve parent name
  ∧ PathType.resolve parent ("./foo.js" +:+ ".js")
    = {| absolute := absolute parent;
         names := names parent ++ ["."; "foo.js.js"] |}.
Proof.
  intros H module.
  pose proof (resolveModule_relative host parent name H) as R. cbv zeta in R.
  fold module in R. split; [exact R|]. split; [|split].
  - intros p Hp. rewrite R in Hp.
    destruct (Files_exists host module); [split; congruence | discriminate].
  - apply resolve_js_differs, H.
  - apply (resolve_dot_slash parent "foo.js"). reflexivity.
Qed.

(** In the demo plugin [dist/foo.js] exists and [dist/foo.js.js] does not:
    ["./foo.js"] does not resolve. *)
Lemma resolveModule_appends_js_witness :
  Js.head "./foo.js" = Some "."%char
  ∧ Files_exists Demo.host (PathType.resolve Demo.dist_dir "./foo.js") = true
  ∧ resolveModule Demo.host (Some Demo.dist_dir) "./foo.js" = inr None.
Proof.
  split; [reflexivity|]. split; [reflexivity|].
  exact (proj1 (resolveModule_appends_js Demo.host Demo.dist_dir "./foo.js" eq_refl)).
Defined.




(** ** The package entrypoint resolver *)

(** C7, as the code has it. The Package Entrypoint Resolver returns
    [packageDir/main] whenever a manifest exists, is read and parsed, and
    declares a main field that is not the empty string, without checking
    that this file exists. When there is no manifest, or the manifest
    declares no main field or an empty one, it returns [index.js] inside the
    package directory if that file exists and null otherwise. *)
Theorem getEntrypoint_cases (host : Host) (module : Path) :
  let packageJson := PathType.resolve module "package.json" in
  let index := PathType.resolve module "index.js" in
  let fallback := if Files_exists host index then Some index else None in
  (∀ text main : string,
     Files_exists host packageJson = true →
     Files_readString host packageJson = inr text →
     JSON_parse_main host text = inr (Some main) →
     main ≠ "" →
     getEntrypoint host module = inr (Some (PathType.resolve module main)))
  ∧ (∀ text : string,
       Files_exists host packageJson = true →
       Files_readString host packageJson = inr text →
       JSON_parse_main host text = inr None ∨ JSON_parse_main host text = inr (Some "") →
       getEntrypoint host module = inr fallback)
  ∧ (Files_exists host packageJson = false →
       getEntrypoint host module = inr fallback).
Proof.
  intros packageJson index fallback. unfold getEntrypoint.
  fold packageJson. fold index. split; [|split].
  - intros text main -> -> -> Hmain. destruct main; [done | reflexivity].
  - intros text -> -> [-> | ->]; simpl; unfold fallback;
      by destruct (Files_exists host index).
  - intros ->. unfold fallback. by destruct (Files_exists host index).
Qed.

(** In the demo plugin: [pkg] declares the missing file [lib.js] and gets
    it; [plain] has no manifest and gets its [index.js]; [none] has neither
    and gets null; [empty] declares an empty main and gets its [index.js]. *)
Lemma getEntrypoint_cases_witness :
  Files_exists Demo.host (Demo.node_modules "pkg/lib.js") = false
  ∧ getEntrypoint Demo.host (Demo.node_modules "pkg")
    = inr (Some (Demo.node_modules "pkg/lib.js"))
  ∧ getEntrypoint Demo.host (Demo.node_modules "plain")
    = inr (Some (Demo.node_modules "plain/index.js"))
  ∧ getEntrypoint Demo.host (Demo.node_modules "none") = inr None
  ∧ getEntrypoint Demo.host (Demo.node_modules "empty")
    = inr (Some (Demo.node_modules "empty/index.js")).
Proof.
  split; [reflexivity|]. split; [|split; [|split]].
  - apply (proj1 (getEntrypoint_cases Demo.host (Demo.node_modules "pkg"))
             "{ main: lib.js }" "lib.js"); done.
  - apply (proj2 (proj2 (getEntrypoint_cases Demo.host (Demo.node_modules "plain")))).
    reflexivity.
  - apply (proj2 (proj2 (getEntrypoint_cases Demo.host (Demo.node_modules "none")))).
    reflexivity.
  - apply (proj1 (proj2 (getEntrypoint_cases Demo.host (Demo.node_modules "empty")))
             "{ main: }"); [reflexivity | reflexivity | right; reflexivity].
Defined.

(** C7 fails as stated. The manifest of [empty] exists and declares a main
    field, the empty string; the resolver does not return [packageDir/main]
    (the package directory) but the default entry file. The manifest of
    [broken] exists and is not JSON; the resolver raises instead of falling
    back to the default entry file, which exists. *)
Lemma getEntrypoint_declared_main_not_returned :
  let module := Demo.node_modules "empty" in
  let packageJson := PathType.resolve module "package.json" in
  Files_exists Demo.host packageJson = true
  ∧ (Files_readString Demo.host packageJson = inr "{ main: }"
     ∧ JSON_parse_main Demo.host "{ main: }" = inr (Some ""))
  ∧ getEntrypoint Demo.host module = inr (Some (PathType.resolve module "index.js"))
  ∧ PathType.resolve module "index.js" ≠ PathType.resolve module ""
  ∧ Files_exists Demo.host (Demo.node_modules "broken/index.js") = true
  ∧ getEntrypoint Demo.host (Demo.node_modules "broken") = inl Demo.SyntaxError.
Proof. repeat split; try reflexivity. discriminate. Qed.

(** ** Namespaces *)

Lemma walk_app (host : Host) (pkg : JavaPackage) (l1 l2 : list string) :
  walk host pkg (l1 ++ l2) = walk host pkg l1 ≫= λ q, walk host q l2.
Proof.
  revert pkg. induction l1 as [|part l1 IH]; intros pkg; simpl; [reflexivity|].
  destruct (member host pkg part); [apply IH | reflexivity].
Qed.

(** A name that is a namespace is returned and cached as such. *)
Lemma require_package (host : Host) (fuel : nat) (id : string)
    (relative : option string) (st : state) (pkg : JavaPackage) :
  resolvePackage host (override id) = Some pkg →
  cache st !! cacheId relative (override id) = None →
  __require host (S fuel) id relative st
  = Some (Returned (VPackage pkg),
          cache_set (cacheId relative (override id)) (VPackage pkg) st).
Proof. intros Hp Hc. simpl. by rewrite Hc, Hp. Qed.

(** A cached key is answered from the cache: nothing is resolved, read or
    executed, and the state stays as it is. *)
Lemma require_cached (host : Host) (fuel : nat) (id : string)
    (relative : option string) (st : state) (v : value) :
  cache st !! cacheId relative (override id) = Some v →
  __require host (S fuel) id relative st = Some (Returned v, st).
Proof. intros Hc. simpl. by rewrite Hc. Qed.

(** C8. Namespace resolution succeeds only if every dotted segment resolves
    to a nested namespace: a segment that fails fails the whole name, and a
    name that resolves went through a namespace at every segment. When the
    name resolves (and is not cached yet), require returns the namespace
    handle and caches it under the cache key; the stack and the trace stay
    as they were, so no file is read or executed, whatever the file system
    holds; the next require of the name returns the same handle. *)
Theorem namespace_resolution (host : Host) (id : string) :
  let name := override id in
  (∀ before after : list string,
     Js.split "." name = before ++ after →
     walk host (Packages host) before = None →
     resolvePackage host name = None)
  ∧ (∀ (pkg : JavaPackage) (before : list string) (part : string) (after : list string),
       resolvePackage host name = Some pkg →
       Js.split "." name = before ++ part :: after →
       ∃ p child : JavaPackage,
         walk host (Packages host) before = Some p
         ∧ member host p part = Some child
         ∧ walk host child after = Some pkg)
  ∧ (∀ (pkg : JavaPackage) (fuel : nat) (relative : option string) (st : state),
       resolvePackage host name = Some pkg →
       cache st !! cacheId relative name = None →
       ∃ st' : state,
         __require host (S fuel) id relative st = Some (Returned (VPackage pkg), st')
         ∧ cache st' = <[cacheId relative name := VPackage pkg]> (cache st)
         ∧ stack st' = stack st
         ∧ trace st' = trace st
         ∧ allocated st' = allocated st
         ∧ __require host (S fuel) id relative st' = Some (Returned (VPackage pkg), st')).
Proof.
  intros name. split; [|split].
  - intros before after Hs Hw. unfold resolvePackage.
    by rewrite Hs, walk_app, Hw.
  - intros pkg before part after Hr Hs. unfold resolvePackage in Hr.
    rewrite Hs, walk_app in Hr.
    destruct (walk host (Packages host) before) as [p|]; [|discriminate].
    simpl in Hr. destruct (member host p part) as [child|] eqn:Hm; [|discriminate].
    by exists p, child.
  - intros pkg fuel relative st Hr Hc. eexists. split; [by apply require_package|].
    repeat split. apply require_cached. simpl. apply lookup_insert_eq.
Qed.

(** In the demo plugin [java.lang] is a namespace. *)
Lemma namespace_resolution_witness :
  resolvePackage Demo.host "java.lang" = Some 2
  ∧ resolvePackage Demo.host "java.nothing.lang" = None
  ∧ ∃ st' : state,
      __require Demo.host 1 "java.lang" None initial = Some (Returned (VPackage 2), st')
      ∧ cache st' = <["/java.lang" := VPackage 2]> ∅
      ∧ stack st' = []
      ∧ trace st' = []
      ∧ allocated st' = 0
      ∧ __require Demo.host 1 "java.lang" None st' = Some (Returned (VPackage 2), st').
Proof.
  split; [reflexivity|]. split.
  - apply (proj1 (namespace_resolution Demo.host "java.nothing.lang")
             ["java"; "nothing"] ["lang"]); reflexivity.
  - apply (proj2 (proj2 (namespace_resolution Demo.host "java.lang")) 2 0 None initial);
      reflexivity.
Defined.

(** ** The loader: fuel *)

(** More fuel does not change what a require gives. *)
Lemma run_mono req req' (b : body) (exports : value) (st : state) r :
  (∀ id relative s r, req id relative s = Some r → req' id relative s = Some r) →
  run req b exports st = Some r → run req' b exports st = Some r.
Proof.
  intros Hreq. revert exports st.
  induction b as [|t|v k IH|id relative k IH]; intros exports st; simpl.
  - done.
  - done.
  - apply IH.
  - destruct (req id relative st) as [[o s]|] eqn:E; [|discriminate].
    rewrite (Hreq _ _ _ _ E). apply IH.
Qed.

Lemma load_mono (host : Host) req req' (key : string) (entrypoint : Path)
    (st : state) r :
  (∀ id relative s r, req id relative s = Some r → req' id relative s = Some r) →
  load host req key entrypoint st = Some r →
  load host req' key entrypoint st = Some r.
Proof.
  intros Hreq. unfold load.
  destruct (Files_readString host entrypoint) as [e|contents]; [done|].
  destruct (eval host (closure contents)) as [error|func]; [done|].
  destruct (run req _ _ _) as [x|] eqn:E; [|discriminate].
  by rewrite (run_mono _ _ _ _ _ _ Hreq E).
Qed.

Lemma require_unfold (host : Host) (fuel : nat) (id : string)
    (relative : option string) (st : state) :
  __require host (S fuel) id relative st =
    match cache st !! cacheId relative (override id) with
    | Some cached => Some (Returned cached, st)
    | None =>
        match resolvePackage host (override id) with
        | Some pkg =>
            Some (Returned (VPackage pkg),
                  cache_set (cacheId relative (override id)) (VPackage pkg) st)
        | None =>
            let parent := requestingDir host relative (stack st) in
            match resolveModule host parent (override id) with
            | inl e => Some (Threw e, st)
            | inr None => Some (Threw (ModuleNotFoundError (override id) parent), st)
            | inr (Some entrypoint) =>
                load host (__require host fuel) (cacheId relative (override id))
                  entrypoint st
            end
        end
    end.
Proof. reflexivity. Qed.

Lemma require_fuel_mono (host : Host) (fuel : nat) :
  ∀ (id : string) (relative : option string) (st : state) r,
    __require host fuel id relative st = Some r →
    __require host (S fuel) id relative st = Some r.
Proof.
  induction fuel as [|fuel IH]; intros id relative st r; [discriminate|].
  rewrite (require_unfold host (S fuel)), (require_unfold host fuel).
  destruct (cache st !! _); [done|].
  destruct (resolvePackage host _); [done|]. cbv zeta.
  destruct (resolveModule host _ _) as [e|[entrypoint|]]; [done| |done].
  apply load_mono. exact IH.
Qed.

Lemma require_fuel_le (host : Host) (fuel fuel' : nat) (id : string)
    (relative : option string) (st : state) r :
  fuel ≤ fuel' →
  __require host fuel id relative st = Some r →
  __require host fuel' id relative st = Some r.
Proof.
  induction 1 as [|fuel' _ IH]; [done|]. intros H. by apply require_fuel_mono, IH.
Qed.

(** ** The loader: cache and stack *)

(** A load that returns has cached the module record it allocated. *)
Lemma load_returned (host : Host) req (key : string) (entrypoint : Path)
    (st st' : state) (v : value) :
  load host req key entrypoint st = Some (Returned v, st') →
  cache st' !! key = Some (VModule (allocated st)).
Proof.
  unfold load. destruct (Files_readString host entrypoint) as [e|contents]; [discriminate|].
  destruct (eval host (closure contents)) as [error|func].
  - intros [= _ <-]. simpl. apply lookup_insert_eq.
  - destruct (run req _ _ _) as [[[exports raised] st2]|]; [|discriminate].
    destruct raised as [[n|error]|]; simpl; [discriminate| |];
      intros [= _ <-]; simpl; apply lookup_insert_eq.
Qed.


(** A file that cannot be read: the error reaches the caller and the
    entrypoint stays on the stack. *)
Lemma load_unreadable (host : Host) req (key : string) (entrypoint : Path)
    (st : state) (e : JsError) :
  Files_readString host entrypoint = inl e →
  load host req key entrypoint st
  = Some (Threw e, emit (ReadString entrypoint) (alloc (stack_push entrypoint st))).
Proof. intros H. unfold load. by rewrite H. Qed.

(** A body that raises an error object: the loader logs the error, caches
    the module, pops the stack and returns [module.exports]. *)
Lemma load_body_raised (host : Host) req (key : string) (entrypoint : Path)
    (st st2 st3 : state) (contents : string) (func : script) (exports : value)
    (error : JsError) :
  Files_readString host entrypoint = inr contents →
  eval host (closure contents) = inr func →
  run req
    (func (VModule (allocated st)) (VExports (allocated st))
       (PathType.toString entrypoint)
       (Js.nullish (PathType.toString <$> PathType.parent entrypoint) "."))
    (VExports (allocated st))
    (emit (Call (PathType.toString entrypoint)
             (Js.nullish (PathType.toString <$> PathType.parent entrypoint) "."))
       (emit (Evaluate (closure contents))
          (emit (ReadString entrypoint) (alloc (stack_push entrypoint st)))))
  = Some (exports, Some (Error error), st2) →
  catch entrypoint contents (Error error) st2 = inr st3 →
  load host req key entrypoint st
  = Some (Returned exports,
          stack_pop (cache_set key (VModule (allocated st)) st3)).
Proof.
  intros Hr He Hb [= <-]. unfold load. rewrite Hr, He. simpl in *. by rewrite Hb.
Qed.

Lemma require_returned_cached (host : Host) (fuel : nat) (id : string)
    (relative : option string) (st st' : state) (v : value) :
  __require host fuel id relative st = Some (Returned v, st') →
  is_Some (cache st' !! cacheId relative (override id)).
Proof.
  destruct fuel; [discriminate|]. simpl.
  destruct (cache st !! _) as [c|] eqn:Hc.
  { intros [= _ <-]. by rewrite Hc. }
  destruct (resolvePackage host (override id)) as [pkg|].
  { intros [= _ <-]. simpl. rewrite lookup_insert_eq. eauto. }
  destruct (resolveModule host _ _) as [e|[entrypoint|]]; [discriminate| |discriminate].
  intros H. apply load_returned in H. rewrite H. eauto.
Qed.

(** A require that returned is answered from the cache from then on: the
    state stays as it is, so nothing is resolved, read or executed again. *)
Lemma require_again (host : Host) (fuel n : nat) (id : string)
    (relative : option string) (st st' : state) (v : value) :
  __require host fuel id relative st = Some (Returned v, st') →
  ∃ c : value,
    cache st' !! cacheId relative (override id) = Some c
    ∧ __require host (S n) id relative st' = Some (Returned c, st').
Proof.
  intros H. apply require_returned_cached in H as [c Hc].
  exists c. split; [exact Hc | by apply require_cached].
Qed.

(** What the cache holds for a require that returned: the value it
    returned when that came from the cache or is a namespace, and the module
    record, not its exports, when a file was loaded. *)
Lemma require_twice (host : Host) (fuel : nat) (id : string)
    (relative : option string) (st st' : state) (v : value) :
  __require host fuel id relative st = Some (Returned v, st') →
  cache st' !! cacheId relative (override id) = Some v
  ∨ (cache st !! cacheId relative (override id) = None
     ∧ resolvePackage host (override id) = None
     ∧ cache st' !! cacheId relative (override id) = Some (VModule (allocated st))).
Proof.
  destruct fuel; [discriminate|]. rewrite require_unfold.
  destruct (cache st !! _) as [c|] eqn:Hc.
  { intros [= <- <-]. by left. }
  destruct (resolvePackage host (override id)) as [pkg|].
  { intros [= <- <-]. left. simpl. apply lookup_insert_eq. }
  cbv zeta. destruct (resolveModule host _ _) as [e|[entrypoint|]];
    [discriminate| |discriminate].
  intros H. apply load_returned in H. right. auto.
Qed.

(** What a body leaves of the stack when the [require] it calls keeps it. *)
Lemma run_stack req (b : body) (exports : value) (st st' : state) r :
  (∀ id relative s o s', req id relative s = Some (o, s') → stack s' = stack s) →
  run req b exports st = Some (r, st') → stack st' = stack st.
Proof.
  intros Hreq. revert exports st.
  induction b as [|e|v k IH|id relative k IH]; intros exports st; simpl.
  - by intros [= _ <-].
  - by intros [= _ <-].
  - apply IH.
  - destruct (req id relative st) as [[o s]|] eqn:E; [|discriminate].
    intros H. apply IH in H. rewrite H. eapply Hreq, E.
Qed.

Lemma run_throws_objects req (b : body) (exports v : value) (st st' : state)
    (t : thrown) :
  throws_objects b →
  run req b exports st = Some (v, Some t, st') → ∃ e : JsError, t = Error e.
Proof.
  intros Hb. revert exports st.
  induction Hb as [|e|x k _ IH|id relative k _ IH]; intros exports st; simpl.
  - discriminate.
  - intros [= _ <- _]. by exists e.
  - apply IH.
  - destruct (req id relative st) as [[o s]|]; [apply IH | discriminate].
Qed.

(** On such a host the stack is the same after a require as before it,
    whether the require returned or raised. *)
Lemma require_stack_balanced (host : Host) :
  well_behaved host →
  ∀ (fuel : nat) (id : string) (relative : option string) (st st' : state) (o : outcome),
    __require host fuel id relative st = Some (o, st') → stack st' = stack st.
Proof.
  intros [Hread Hobj].
  induction fuel as [|fuel IH]; intros id relative st st' o; [discriminate|].
  simpl. destruct (cache st !! _) as [c|]; [by intros [= _ <-]|].
  destruct (resolvePackage host (override id)) as [pkg|]; [by intros [= _ <-]|].
  destruct (resolveModule host _ _) as [e|[entrypoint|]] eqn:Hres;
    [by intros [= _ <-] | | by intros [= _ <-]].
  unfold load. destruct (Hread _ _ _ Hres) as [contents ->].
  destruct (eval host (closure contents)) as [error|func] eqn:Hev.
  - intros [= _ <-]. simpl. apply removelast_last.
  - destruct (run _ _ _ _) as [[[exports raised] st2]|] eqn:E; [|discriminate].
    pose proof E as Hst. apply run_stack in Hst; [|intros; eapply IH; eassumption].
    simpl in Hst. destruct raised as [t|].
    + apply run_throws_objects in E as [e ->]; [|by eapply Hobj].
      intros [= _ <-]. simpl. rewrite Hst. apply removelast_last.
    + intros [= _ <-]. simpl. rewrite Hst. apply removelast_last.
Qed.

Lemma bare_well_behaved : well_behaved Demo.bare.
Proof.
  split.
  - intros parent id p. unfold resolveModule.
    case_bool_decide; [intros [= <-]; by eexists|].
    case_bool_decide; simpl; [|discriminate].
    destruct parent as [parent|]; [|discriminate].
    destruct (bool_decide _) eqn:Hex; intros [= <-].
    apply bool_decide_eq_true_1 in Hex as [text Hex]. exists text. by rewrite Hex.
  - intros text func module exports filename dirname [= <-].
    unfold Demo.lookup. simpl. destruct (decide _); simpl; constructor.
Qed.

(** The stack discipline on the bare demo plugin. *)
Lemma bare_stack_balanced (fuel : nat) (id : string) (relative : option string)
    (st st' : state) (o : outcome) :
  __require Demo.bare fuel id relative st = Some (o, st') → stack st' = stack st.
Proof. apply require_stack_balanced, bare_well_behaved. Qed.
(** ** The claims on the cache and on the stack *)

(** C1 on the code, in the demo plugin. [dist/sub/b.js] requires
    ["./util"], from the directory [dist/sub]; requiring ["./sub/b"] loads
    [dist/sub/util.js] and caches it under the key of ["./util"], in which
    the directory has no part. A require of ["./util"] from the directory
    [dist], where it names the other file [dist/util.js], has the same key:
    it is answered from that entry and [dist/util.js] is never read. The
    same require with the directory [dist] given as the second argument has
    a key of its own, made with the directory, and loads [dist/util.js]. *)
Theorem cache_key_ignores_current_directory :
  let b := Demo.dist "sub/b.js" in
  requestingDir Demo.host None [b] = Some (PathType.of_string "/plugin/dist/./sub")
  ∧ requestingDir Demo.host None [] = Some Demo.dist_dir
  ∧ resolveModule Demo.host (requestingDir Demo.host None [b]) "./util"
    = inr (Some (Demo.dist "sub/./util.js"))
  ∧ resolveModule Demo.host (requestingDir Demo.host None []) "./util"
    = inr (Some (Demo.dist "util.js"))
  ∧ ∃ st : state,
      __require Demo.host 2 "./sub/b" None initial = Some (Returned (VExports 0), st)
      ∧ stack st = []
      ∧ reads (trace st) = [b; Demo.dist "sub/./util.js"]
      ∧ map_to_list (cache st) = [("/./sub/b", VModule 0); ("/./util", VModule 1)]
      ∧ __require Demo.host 1 "./util" None st = Some (Returned (VModule 1), st)
      ∧ ∃ st' : state,
          __require Demo.host 1 "./util" (Some "/plugin/dist") st
          = Some (Returned (VExports 2), st')
          ∧ reads (trace st') = [b; Demo.dist "sub/./util.js"; Demo.dist "util.js"]
          ∧ cache st' !! "/plugin/dist./util" = Some (VModule 2)
          ∧ cache st' !! "/./util" = Some (VModule 1).
Proof.
  repeat split; try reflexivity. eexists.
  split; [vm_compute; reflexivity|].
  split; [vm_compute; reflexivity|]. split; [vm_compute; reflexivity|].
  split; [vm_compute; reflexivity|]. split; [vm_compute; reflexivity|].
  eexists. split; [vm_compute; reflexivity|]. repeat split; vm_compute; reflexivity.
Qed.

(** C5. The override table is applied before the cache key is computed and
    before any resolution step. For every specifier [id] (that is not the
    name of an inherited property of the table), with [key] the cache key
    made of the replaced name: the replacement is final; a require of [id]
    is the require of its replacement, in every state; when [key] is
    cached, the require returns that entry; when it is not and the replaced
    name is a namespace, the handle is stored under [key]; and a require
    of [id] that returns, by whatever path, leaves an entry under [key]
    (the value returned, or the record of the module that it loaded), from
    which the next require of [id] and of its replacement are both answered
    without a change of the state. ["path"] is replaced by
    ["path-browserify"] and ["tty"] by ["tty-browserify"], which are not
    replaced themselves: requiring ["path"] and requiring
    ["path-browserify"] with the same directory argument look up and fill
    the same entry. *)
Theorem override_precedes_cache_key (host : Host) (id : string)
    (relative : option string) :
  id ∉ inherited →
  let key := cacheId relative (override id) in
  override (override id) = override id
  ∧ (∀ (fuel : nat) (st : state),
       __require host fuel id relative st
       = __require host fuel (override id) relative st)
  ∧ (∀ (fuel : nat) (st : state) (v : value),
       cache st !! key = Some v →
       __require host (S fuel) id relative st = Some (Returned v, st))
  ∧ (∀ (fuel : nat) (st : state) (pkg : JavaPackage),
       cache st !! key = None →
       resolvePackage host (override id) = Some pkg →
       __require host (S fuel) id relative st
       = Some (Returned (VPackage pkg), cache_set key (VPackage pkg) st))
  ∧ (∀ (fuel : nat) (st st' : state) (v : value),
       __require host fuel id relative st = Some (Returned v, st') →
       ∃ c : value,
         cache st' !! key = Some c
         ∧ (c = v ∨ (cache st !! key = None ∧ c = VModule (allocated st)))
         ∧ ∀ n : nat,
             __require host (S n) id relative st' = Some (Returned c, st')
             ∧ __require host (S n) (override id) relative st'
               = Some (Returned c, st'))
  ∧ override "path" = "path-browserify"
  ∧ override "path-browserify" = "path-browserify"
  ∧ override "tty" = "tty-browserify"
  ∧ override "tty-browserify" = "tty-browserify".
Proof.
  intros _ key. split; [apply override_idempotent|].
  split; [intros fuel st; apply require_override|].
  split; [intros fuel st v Hc; by apply require_cached|].
  split; [intros fuel st pkg Hc Hp; by apply require_package|].
  split; [|by repeat split].
  intros fuel st st' v H.
  assert (Hhit : ∀ c, cache st' !! key = Some c →
            ∀ n : nat,
              __require host (S n) id relative st' = Some (Returned c, st')
              ∧ __require host (S n) (override id) relative st'
                = Some (Returned c, st')).
  { intros c Hc n. split; [by apply require_cached|].
    apply require_cached. by rewrite override_idempotent. }
  destruct (require_twice host fuel id relative st st' v H) as [Hv|(Hc & _ & Hm)].
  - exists v. split; [exact Hv|]. split; [by left | by apply Hhit].
  - exists (VModule (allocated st)). split; [exact Hm|].
    split; [by right | by apply Hhit].
Qed.

(** In the demo plugin: requiring ["path"] with an empty cache loads
    [node_modules/path-browserify/index.js] and fills the entry of
    ["path-browserify"]; requiring ["path-browserify"] next is answered
    from that entry. *)
Lemma override_precedes_cache_key_witness :
  ("path" ∉ inherited)
  ∧ ∃ st : state,
      __require Demo.host 1 "path" None initial = Some (Returned (VExports 0), st)
      ∧ reads (trace st) = [Demo.node_modules "path-browserify/index.js"]
      ∧ map_to_list (cache st) = [("/path-browserify", VModule 0)]
      ∧ __require Demo.host 1 "path-browserify" None st
        = Some (Returned (VModule 0), st).
Proof.
  assert (Hid : "path" ∉ inherited)
    by (apply (bool_decide_eq_true_1 _); vm_compute; reflexivity).
  split; [exact Hid|].
  destruct (__require Demo.host 1 "path" None initial) as [[o st]|] eqn:E;
    [|vm_compute in E; discriminate].
  assert (Ho : o = Returned (VExports 0)) by (vm_compute in E; congruence).
  subst o.
  destruct (proj1 (proj2 (proj2 (proj2 (proj2
              (override_precedes_cache_key Demo.host "path" None Hid)))))
              1 initial st (VExports 0) E) as (c & Hc & Hv & Hnext).
  exists st. split; [reflexivity|].
  assert (Hst : st = {| cache := <["/path-browserify" := VModule 0]> ∅;
                        stack := []; allocated := 1;
                        trace := trace st |})
    by (vm_compute in E; injection E as <-; reflexivity).
  split; [vm_compute in E; injection E as <-; vm_compute; reflexivity|].
  assert (Hc' : c = VModule 0).
  { rewrite Hst in Hc. simpl in Hc.
    change (cacheId None (override "path")) with "/path-browserify" in Hc.
    rewrite lookup_insert_eq in Hc. by injection Hc. }
  subst c. split; [|exact (proj2 (Hnext 0))].
  rewrite Hst. simpl. by rewrite insert_empty, map_to_list_singleton.
Defined.

(** C2 on the code: requiring ["./foo"] twice in the demo plugin. The first
    call loads [dist/foo.js] and returns its exports object; the second call
    reads and executes nothing, and returns what the cache holds, which is
    the module record and not the exports object. *)
Theorem second_require_returns_module_record :
  ∃ st : state,
    __require Demo.host 1 "./foo" None initial = Some (Returned (VExports 0), st)
    ∧ reads (trace st) = [Demo.dist "foo.js"]
    ∧ __require Demo.host 1 "./foo" None st = Some (Returned (VModule 0), st)
    ∧ VModule 0 ≠ VExports 0.
Proof.
  eexists. split; [vm_compute; reflexivity|].
  split; [vm_compute; reflexivity|]. split; [vm_compute; reflexivity | discriminate].
Qed.

(** C4 on the code: requiring ["pkg"] in the demo plugin, whose manifest
    declares the missing file [lib.js]. Reading the file raises outside the
    [try] block: the error reaches the caller of [require] and the
    entrypoint stays on the stack, which was empty. *)
Theorem failed_read_leaves_stack_entry :
  let lib := Demo.node_modules "pkg/lib.js" in
  resolveModule Demo.host (requestingDir Demo.host None []) "pkg" = inr (Some lib)
  ∧ Files_readString Demo.host lib = inl (Demo.NoSuchFileException lib)
  ∧ ∃ st : state,
      __require Demo.host 1 "pkg" None initial
      = Some (Threw (Demo.NoSuchFileException lib), st)
      ∧ stack initial = []
      ∧ stack st = [lib].
Proof.
  split; [reflexivity|]. split; [reflexivity|]. eexists.
  split; [vm_compute; reflexivity|]. split; reflexivity.
Qed.

(** C3 on the code, in the demo plugin. The body of [null.js] throws
    [null]: the [catch] block raises on [error.lineNumber], the error
    reaches the caller, nothing is cached and the entrypoint stays on the
    stack. The body of [a.js] requires ["pkg"] and does not catch: the error
    does not reach the caller and the module is cached, but the pop takes
    the entrypoint that the failed read of [pkg] left, and the stack, which
    was empty, keeps [dist/a.js]. *)
Theorem raising_body_not_isolated :
  stack initial = []
  ∧ (∃ st : state,
       __require Demo.host 1 "./null" None initial
       = Some (Threw (TypeError "lineNumber" null), st)
       ∧ cache st !! cacheId None "./null" = None
       ∧ stack st = [Demo.dist "null.js"])
  ∧ (∃ st : state,
       __require Demo.host 2 "./a" None initial = Some (Returned (VExports 0), st)
       ∧ last (trace st)
         = Some (ConsoleError
                   (Demo.NoSuchFileException (Demo.node_modules "pkg/lib.js")))
       ∧ cache st !! cacheId None "./a" = Some (VModule 0)
       ∧ stack st = [Demo.dist "a.js"]).
Proof.
  split; [reflexivity|]. split.
  - eexists. split; [vm_compute; reflexivity|]. split; vm_compute; reflexivity.
  - eexists. split; [vm_compute; reflexivity|]. repeat split; vm_compute; reflexivity.
Qed.

(** * More of the code *)

(** ** What a require keeps of the cache and of the stack *)

Lemma run_cache_stable req (b : body) (exports : value) (st st' : state) r
    (k : string) (v : value) :
  (∀ id relative s o s',
     req id relative s = Some (o, s') →
     cache s !! k = Some v → cache s' !! k = Some v) →
  run req b exports st = Some (r, st') →
  cache st !! k = Some v → cache st' !! k = Some v.
Proof.
  intros Hreq. revert exports st.
  induction b as [|t|x b IH|id relative b IH]; intros exports st; simpl.
  - by intros [= _ <-].
  - by intros [= _ <-].
  - apply IH.
  - destruct (req id relative st) as [[o s]|] eqn:E; [|discriminate].
    intros H Hk. eapply IH; [exact H|]. eapply Hreq; eassumption.
Qed.

(** Whatever a require does, returning or raising, every key that was
    cached before the call holds the same value after it. *)
Theorem require_cache_stable (host : Host) (fuel : nat) :
  ∀ (id : string) (relative : option string) (st st' : state) (o : outcome)
    (k : string) (v : value),
    __require host fuel id relative st = Some (o, st') →
    cache st !! k = Some v →
    cache st' !! k = Some v.
Proof.
  induction fuel as [|fuel IH]; intros id relative st st' o k v; [discriminate|].
  rewrite require_unfold.
  destruct (cache st !! cacheId relative (override id)) as [c|] eqn:Hc;
    [by intros [= _ <-]|].
  destruct (resolvePackage host (override id)) as [pkg|].
  { intros [= _ <-] Hk. simpl. rewrite lookup_insert_ne; [done|]. congruence. }
  cbv zeta. destruct (resolveModule host _ _) as [e|[entrypoint|]];
    [by intros [= _ <-] | | by intros [= _ <-]].
  unfold load. destruct (Files_readString host entrypoint) as [e|contents];
    [by intros [= _ <-]|].
  assert (Hne : cache st !! k = Some v → cacheId relative (override id) ≠ k)
    by congruence.
  destruct (eval host (closure contents)) as [error|func].
  - intros [= _ <-] Hk. simpl. by rewrite lookup_insert_ne by auto.
  - destruct (run _ _ _ _) as [[[exports raised] st2]|] eqn:E; [|discriminate].
    intros H Hk.
    assert (Hk2 : cache st2 !! k = Some v).
    { eapply run_cache_stable; [|exact E|exact Hk].
      intros. eapply IH; eassumption. }
    destruct raised as [[n|error]|]; simpl in H; injection H as _ <-; simpl;
      [done | by rewrite lookup_insert_ne by auto..].
Qed.

(** In the demo plugin the entry of ["./util"] survives the load of
    ["./sub/b"], whose body requires ["./util"] itself. *)
Lemma require_cache_stable_witness :
  let st := cache_set "/./util" (VScript 7) initial in
  ∃ st' : state,
    __require Demo.host 2 "./sub/b" None st = Some (Returned (VExports 0), st')
    ∧ cache st' !! "/./util" = Some (VScript 7).
Proof.
  intros st. eexists. split; [vm_compute; reflexivity|].
  apply (require_cache_stable Demo.host 2 "./sub/b" None st _ (Returned (VExports 0)));
    vm_compute; reflexivity.
Defined.

Lemma run_stack_grows req (b : body) (exports : value) (st st' : state) r :
  (∀ id relative s o s',
     req id relative s = Some (o, s') → ∃ t, stack s' = stack s ++ t) →
  run req b exports st = Some (r, st') → ∃ t, stack st' = stack st ++ t.
Proof.
  intros Hreq. revert exports st.
  induction b as [|t|x b IH|id relative b IH]; intros exports st; simpl.
  - intros [= _ <-]. exists []. by rewrite app_nil_r.
  - intros [= _ <-]. exists []. by rewrite app_nil_r.
  - apply IH.
  - destruct (req id relative st) as [[o s]|] eqn:E; [|discriminate].
    intros H. apply IH in H as [t2 H2]. apply Hreq in E as [t1 H1].
    exists (t1 ++ t2). by rewrite H2, H1, app_assoc.
Qed.

(** A require never takes from the stack what was on it before the call:
    the stack before the call is a prefix of the stack after it, whether the
    call returned or raised. *)
Theorem require_stack_grows (host : Host) (fuel : nat) :
  ∀ (id : string) (relative : option string) (st st' : state) (o : outcome),
    __require host fuel id relative st = Some (o, st') →
    ∃ left : list Path, stack st' = stack st ++ left.
Proof.
  induction fuel as [|fuel IH]; intros id relative st st' o; [discriminate|].
  assert (Hnil : ∀ s : state, ∃ t, stack s = stack s ++ t)
    by (intros s; exists []; by rewrite app_nil_r).
  rewrite require_unfold.
  destruct (cache st !! _) as [c|]; [intros [= _ <-]; apply Hnil|].
  destruct (resolvePackage host (override id)) as [pkg|];
    [intros [= _ <-]; apply (Hnil st)|].
  cbv zeta. destruct (resolveModule host _ _) as [e|[entrypoint|]];
    [intros [= _ <-]; apply Hnil | | intros [= _ <-]; apply Hnil].
  unfold load. destruct (Files_readString host entrypoint) as [e|contents].
  { intros [= _ <-]. by exists [entrypoint]. }
  assert (Hpop : ∀ t, ∃ t', removelast ((stack st ++ [entrypoint]) ++ t) = stack st ++ t').
  { intros t. rewrite <- app_assoc. simpl.
    exists (removelast (entrypoint :: t)). by apply removelast_app. }
  destruct (eval host (closure contents)) as [error|func].
  - intros [= _ <-]. simpl. exists []. by rewrite removelast_last, app_nil_r.
  - destruct (run _ _ _ _) as [[[exports raised] st2]|] eqn:E; [|discriminate].
    apply run_stack_grows in E as [t Ht]; [|intros; eapply IH; eassumption].
    simpl in Ht.
    destruct raised as [[n|error]|]; simpl; intros [= _ <-]; simpl; rewrite Ht.
    + exists (entrypoint :: t). by rewrite <- app_assoc.
    + apply Hpop.
    + apply Hpop.
Qed.

(** In the demo plugin, with an entry on the stack, after the failed read
    of [pkg]. *)
Lemma require_stack_grows_witness :
  let st := stack_push (Demo.dist "foo.js") initial in
  ∃ (st' : state) (left : list Path),
    __require Demo.host 1 "pkg" None st
    = Some (Threw (Demo.NoSuchFileException (Demo.node_modules "pkg/lib.js")), st')
    ∧ stack st' = [Demo.dist "foo.js"] ++ left.
Proof.
  intros st.
  destruct (__require Demo.host 1 "pkg" None st) as [[o st']|] eqn:E;
    [|vm_compute in E; discriminate].
  destruct (require_stack_grows Demo.host 1 "pkg" None st st' o E) as [left H].
  exists st', left. split; [|exact H].
  vm_compute in E. injection E as <- <-. reflexivity.
Defined.



(** ** What a require raises *)

(** The errors of [resolveModule]: reading [resolve] of a null parent, for a
    relative specifier, or a manifest that cannot be read or parsed. *)
Lemma resolveModule_raises (host : Host) (parent : option Path) (name : string)
    (e : JsError) :
  resolveModule host parent name = inl e →
  (parent = None ∧ Js.head name = Some "."%char ∧ e = TypeError "resolve" null)
  ∨ (Js.head name ≠ Some "."%char
     ∧ getEntrypoint host
         (PathType.resolve (PathType.resolve (pluginRoot host) "node_modules") name)
       = inl e).
Proof.
  unfold resolveModule. case_bool_decide as Hc; [discriminate|].
  case_bool_decide as Hh; simpl.
  - destruct parent as [parent|].
    + destruct (Files_exists host _); discriminate.
    + intros [= <-]. by left.
  - unfold resolveNodeModule. destruct (Files_isDirectory host _); simpl; [|discriminate].
    intros H. by right.
Qed.



(** ** Resolution *)

(** A specifier that does not start with a dot: the parent plays no part. *)
Lemma resolveModule_package (host : Host) (parent : option Path) (name : string) :
  Js.head name ≠ Some "."%char →
  resolveModule host parent name =
    if bool_decide (name = "craftjs") then inr (Some (__craftjscore host))
    else
      let modules := PathType.resolve (pluginRoot host) "node_modules" in
      if Files_isDirectory host modules
      then getEntrypoint host (PathType.resolve modules name)
      else inr None.
Proof.
  intros Hh. unfold resolveModule, resolveNodeModule.
  case_bool_decide; [done|].
  rewrite (bool_decide_eq_false_2 _ Hh). simpl.
  by destruct (Files_isDirectory host _).
Qed.

(** A specifier that does not start with a dot resolves the same from
    every directory, a null one included: to the core module for
    ["craftjs"], and otherwise to the entrypoint of [modules.resolve(name)],
    where [modules] is [node_modules] of the plugin root, or to nothing
    when the plugin has no [node_modules] directory. For a name that does
    not start with a slash [modules.resolve(name)] is the path of [modules]
    followed by the name elements of the name, as they are written ([..]
    is kept); for a name that starts with a slash it is the absolute path
    that the name spells, whatever [modules] is. So the package directory
    need not lie under [node_modules]. *)
Theorem package_specifier_ignores_directory (host : Host) (name : string) :
  Js.head name ≠ Some "."%char →
  ∀ parent1 parent2 : option Path,
    let modules := PathType.resolve (pluginRoot host) "node_modules" in
    resolveModule host parent1 name = resolveModule host parent2 name
    ∧ resolveModule host parent1 name =
        (if bool_decide (name = "craftjs") then inr (Some (__craftjscore host))
         else if Files_isDirectory host modules
              then getEntrypoint host (PathType.resolve modules name)
              else inr None)
    ∧ (Js.head name ≠ Some "/"%char →
       PathType.resolve modules name
       = {| absolute := absolute modules;
            names := names modules ++ names (PathType.of_string name) |})
    ∧ (Js.head name = Some "/"%char →
       PathType.resolve modules name = PathType.of_string name
       ∧ absolute (PathType.of_string name) = true).
Proof.
  intros Hh parent1 parent2 modules.
  split; [by rewrite !(resolveModule_package host _ name Hh)|].
  split; [by rewrite (resolveModule_package host parent1 name Hh)|].
  assert (Habs : absolute (PathType.of_string name)
                 = bool_decide (Js.head name = Some "/"%char)) by reflexivity.
  split; intros Hslash; unfold PathType.resolve, PathType.resolvePath;
    rewrite Habs.
  - by rewrite (bool_decide_eq_false_2 _ Hslash).
  - by rewrite (bool_decide_eq_true_2 _ Hslash).
Qed.

(** In the demo plugin [plain] resolves to the same file from [dist] and
    from a null directory, and the absolute specifier [/plugin/core] to the
    index file of that directory, which is not under [node_modules]. *)
Lemma package_specifier_ignores_directory_witness :
  resolveModule Demo.host (Some Demo.dist_dir) "plain" = resolveModule Demo.host None "plain"
  ∧ resolveModule Demo.host None "plain" = inr (Some (Demo.node_modules "plain/index.js"))
  ∧ resolveModule Demo.host None "/plugin/core"
    = getEntrypoint Demo.host (PathType.of_string "/plugin/core")
  ∧ getEntrypoint Demo.host (PathType.of_string "/plugin/core") = inr (Some Demo.core).
Proof.
  assert (H : Js.head "plain" ≠ Some "."%char) by discriminate.
  assert (H' : Js.head "/plugin/core" ≠ Some "."%char) by discriminate.
  destruct (package_specifier_ignores_directory Demo.host "plain" H
              (Some Demo.dist_dir) None) as [H1 _].
  destruct (package_specifier_ignores_directory Demo.host "plain" H None None)
    as (_ & H2 & _).
  destruct (package_specifier_ignores_directory Demo.host "/plugin/core" H' None None)
    as (_ & H3 & _ & H4).
  destruct (H4 eq_refl) as [H5 _]. rewrite H5 in H3.
  split; [exact H1|]. split; [exact H2|]. split; [exact H3 | reflexivity].
Defined.

(** Every path that resolution gives names a file that exists, with two
    exceptions: the core module, and the main file that a manifest declares.
    These are the only entrypoints whose read can fail for a missing file. *)
Theorem resolved_file_exists (host : Host) (parent : option Path) (name : string)
    (p : Path) :
  resolveModule host parent name = inr (Some p) →
  Files_exists host p = true
  ∨ (name = "craftjs" ∧ p = __craftjscore host)
  ∨ (∃ text main : string,
       let module :=
         PathType.resolve (PathType.resolve (pluginRoot host) "node_modules") name in
       Files_readString host (PathType.resolve module "package.json") = inr text
       ∧ JSON_parse_main host text = inr (Some main)
       ∧ main ≠ ""
       ∧ p = PathType.resolve module main).
Proof.
  unfold resolveModule. case_bool_decide as Hc.
  { intros [= <-]. right. by left. }
  case_bool_decide as Hh; simpl.
  - destruct parent as [parent|]; [|discriminate].
    destruct (Files_exists host _) eqn:Hex; intros [= <-]. by left.
  - unfold resolveNodeModule. destruct (Files_isDirectory host _); simpl; [|discriminate].
    unfold getEntrypoint.
    set (module := PathType.resolve _ name).
    assert (Hfallback :
      (if Files_exists host (PathType.resolve module "index.js")
       then inr (Some (PathType.resolve module "index.js")) else inr None)
      = (inr (Some p) : JsError + option Path) →
      Files_exists host p = true).
    { destruct (Files_exists host _) eqn:Hex; intros [= <-]. exact Hex. }
    destruct (Files_exists host (PathType.resolve module "package.json")).
    + destruct (Files_readString host _) as [e|text] eqn:Hr; [discriminate|].
      destruct (JSON_parse_main host text) as [e|[main|]] eqn:Hp; [discriminate| |].
      * destruct main as [|c main]; simpl.
        -- intros H. left. by apply Hfallback.
        -- intros [= <-]. right. right. exists text, (String c main). by repeat split.
      * intros H. left. by apply Hfallback.
    + intros H. left. by apply Hfallback.
Qed.

(** In the demo plugin: the file of ["./foo"] exists, the main file of
    [pkg] does not. *)
Lemma resolved_file_exists_witness :
  Files_exists Demo.host (Demo.dist "foo.js") = true
  ∧ Files_exists Demo.host (Demo.node_modules "pkg/lib.js") = false
  ∧ ∃ text main : string,
      Files_readString Demo.host (Demo.node_modules "pkg/package.json") = inr text
      ∧ JSON_parse_main Demo.host text = inr (Some main)
      ∧ main ≠ ""
      ∧ Demo.node_modules "pkg/lib.js"
        = PathType.resolve (Demo.node_modules "pkg") main.
Proof.
  split; [|split; [reflexivity|]].
  - destruct (resolved_file_exists Demo.host (Some Demo.dist_dir) "./foo"
                (Demo.dist "foo.js") eq_refl) as [H|[[H _]|(text & main & _ & _ & _ & H)]];
      [exact H | discriminate H | reflexivity].
  - destruct (resolved_file_exists Demo.host None "pkg"
                (Demo.node_modules "pkg/lib.js") eq_refl)
      as [H|[[H _]|(text & main & H)]];
      [discriminate H | discriminate H |].
    exists text, main. exact H.
Defined.

Lemma resolve_empty (p : Path) : PathType.resolve p "" = p.
Proof.
  destruct p as [a ns]. unfold PathType.resolve, PathType.resolvePath. simpl.
  by rewrite app_nil_r.
Qed.

(** The empty specifier is a package specifier: from every directory it
    resolves to the entrypoint of the [node_modules] directory itself (its
    declared main file or its [index.js]). *)
Theorem empty_specifier_resolution (host : Host) (parent : option Path) :
  resolveModule host parent "" =
    let modules := PathType.resolve (pluginRoot host) "node_modules" in
    if Files_isDirectory host modules then getEntrypoint host modules
    else inr None.
Proof.
  rewrite resolveModule_package by discriminate.
  rewrite bool_decide_eq_false_2 by discriminate. cbv zeta.
  by rewrite resolve_empty.
Qed.

(** A plugin without a [node_modules] directory has no packages: a
    specifier that does not start with a dot, other than ["craftjs"] (and
    other than the name of an inherited property of the override table),
    fails with [ModuleNotFoundError] unless it is cached or names a
    namespace, and the state is left as it was. The message of the error
    holds the replaced specifier and the requesting directory, although no
    file was looked for in that directory. *)
Theorem require_without_node_modules (host : Host) (fuel : nat) (id : string)
    (relative : option string) (st : state) :
  id ∉ inherited →
  Files_isDirectory host (PathType.resolve (pluginRoot host) "node_modules") = false →
  Js.head (override id) ≠ Some "."%char →
  override id ≠ "craftjs" →
  cache st !! cacheId relative (override id) = None →
  resolvePackage host (override id) = None →
  let parent := requestingDir host relative (stack st) in
  let error := ModuleNotFoundError (override id) parent in
  __require host (S fuel) id relative st = Some (Threw error, st)
  ∧ error_name error = Some "ModuleNotFoundError"
  ∧ error_message error
    = Some ("Module '" +:+ override id +:+ "' could not be resolved from "
            +:+ match parent with
                | Some p => PathType.toString p
                | None => "null"
                end).
Proof.
  intros _ Hd Hh Hc Hm Hp parent error. split; [|by split].
  rewrite require_unfold, Hm, Hp. cbv zeta.
  rewrite (resolveModule_package host _ _ Hh).
  rewrite (bool_decide_eq_false_2 _ Hc). cbv zeta. by rewrite Hd.
Qed.

(** On the bare demo plugin, which has no [node_modules]. *)
Lemma require_without_node_modules_witness :
  __require Demo.bare 1 "path" None initial
  = Some (Threw (ModuleNotFoundError "path-browserify" (Some Demo.dist_dir)), initial)
  ∧ error_message (ModuleNotFoundError "path-browserify" (Some Demo.dist_dir))
    = Some "Module 'path-browserify' could not be resolved from /plugin/dist".
Proof.
  destruct (require_without_node_modules Demo.bare 0 "path" None initial)
    as (H1 & _ & H2);
    [apply (bool_decide_eq_true_1 _); reflexivity
    | reflexivity | discriminate | discriminate | reflexivity | reflexivity |].
  split; [exact H1 | exact H2].
Defined.

(** ** The cache key and the directory *)

(** The key decides alone: when two calls have the same cache key, whatever
    their specifiers and directories, the second is answered from the entry
    that the first left, and resolves, reads and executes nothing. The key is
    the plain concatenation of directory and specifier, so it does not tell
    where the one ends and the other starts, and no directory is the same as
    the directory ["/"]. *)
Theorem require_same_key (host : Host) (fuel n : nat) (id1 id2 : string)
    (relative1 relative2 : option string) (st st' : state) (v : value) :
  cacheId relative1 (override id1) = cacheId relative2 (override id2) →
  __require host fuel id1 relative1 st = Some (Returned v, st') →
  (∃ c : value, __require host (S n) id2 relative2 st' = Some (Returned c, st'))
  ∧ (∀ r s id : string, cacheId (Some (r +:+ s)) id = cacheId (Some r) (s +:+ id))
  ∧ (∀ id : string, cacheId None id = cacheId (Some "/") id).
Proof.
  intros Hk H. split; [|split].
  - apply require_returned_cached in H as [c Hc]. exists c.
    apply require_cached. by rewrite <- Hk.
  - intros r s id. unfold cacheId, Js.nullish.
    induction r as [|a r IH]; [reflexivity|].
    change (String a ((r +:+ s) +:+ id) = String a (r +:+ s +:+ id)). by f_equal.
  - reflexivity.
Qed.

(** In the demo plugin: after [require("plain")], a require of ["lain"]
    with the directory ["/p"] is answered with the module of [plain]. *)
Lemma require_same_key_witness :
  ∃ st' : state,
    __require Demo.host 1 "plain" None initial = Some (Returned (VExports 0), st')
    ∧ resolveModule Demo.host (Some (PathType.of_string "/p")) "lain" = inr None
    ∧ ∃ c : value,
        __require Demo.host 1 "lain" (Some "/p") st' = Some (Returned c, st').
Proof.
  eexists. split; [vm_compute; reflexivity|]. split; [reflexivity|].
  eapply (proj1 (require_same_key Demo.host 1 0 "plain" "lain" None (Some "/p")
                   initial _ (VExports 0) eq_refl _)).
  Unshelve. vm_compute. reflexivity.
Defined.

(** What [load] does, but for the key of the final cache entry. *)
Lemma load_key (host : Host) req (key1 key2 : string) (entrypoint : Path)
    (st s1 : state) (o : outcome) :
  load host req key1 entrypoint st = Some (o, s1) →
  ∃ s2 : state,
    load host req key2 entrypoint st = Some (o, s2)
    ∧ stack s2 = stack s1 ∧ trace s2 = trace s1 ∧ allocated s2 = allocated s1.
Proof.
  unfold load. destruct (Files_readString host entrypoint) as [e|contents].
  { intros [= <- <-]. eauto. }
  destruct (eval host (closure contents)) as [error|func].
  { intros [= <- <-]. eauto. }
  destruct (run req _ _ _) as [[[exports raised] st2]|]; [|discriminate].
  destruct raised as [[m|error]|]; simpl; intros [= <- <-]; eauto.
Qed.

(** An empty directory argument is no directory: [require(id, "")] resolves
    from the directory that the stack gives, like [require(id)], and reads,
    executes, returns or raises the same; but its cache key is the specifier
    alone, so neither call sees the entry of the other. *)
Theorem require_empty_directory (host : Host) (fuel : nat) (id : string)
    (st s1 : state) (o : outcome) :
  cache st !! cacheId (Some "") (override id) = None →
  cache st !! cacheId None (override id) = None →
  __require host fuel id (Some "") st = Some (o, s1) →
  cacheId (Some "") (override id) = override id
  ∧ cacheId None (override id) = "/" +:+ override id
  ∧ ∃ s2 : state,
      __require host fuel id None st = Some (o, s2)
      ∧ stack s2 = stack s1 ∧ trace s2 = trace s1 ∧ allocated s2 = allocated s1.
Proof.
  intros H1 H2. split; [reflexivity|]. split; [reflexivity|].
  destruct fuel; [discriminate|]. rewrite !require_unfold in *.
  rewrite H1 in H. rewrite H2.
  destruct (resolvePackage host (override id)) as [pkg|].
  { injection H as <- <-. eauto. }
  cbv zeta in *.
  change (requestingDir host (Some "") (stack st))
    with (requestingDir host None (stack st)) in H.
  destruct (resolveModule host _ _) as [e|[entrypoint|]].
  - injection H as <- <-. eauto.
  - by eapply load_key.
  - injection H as <- <-. eauto.
Qed.

(** In the demo plugin: ["./foo"] with an empty directory is loaded from
    [dist], like ["./foo"] without a directory. *)
Lemma require_empty_directory_witness :
  ∃ s1 s2 : state,
    __require Demo.host 1 "./foo" (Some "") initial = Some (Returned (VExports 0), s1)
    ∧ map_to_list (cache s1) = [("./foo", VModule 0)]
    ∧ __require Demo.host 1 "./foo" None initial = Some (Returned (VExports 0), s2)
    ∧ stack s2 = stack s1 ∧ trace s2 = trace s1 ∧ allocated s2 = allocated s1.
Proof.
  destruct (__require Demo.host 1 "./foo" (Some "") initial) as [[o s1]|] eqn:E;
    [|vm_compute in E; discriminate].
  destruct (require_empty_directory Demo.host 1 "./foo" initial s1 o
              eq_refl eq_refl E) as (_ & _ & s2 & H2 & H).
  exists s1, s2. vm_compute in E. injection E as <- <-.
  split; [reflexivity|]. split; [reflexivity|]. split; [exact H2 | exact H].
Defined.

(** ** The error formatter *)

Lemma append_assoc (r s t : string) : (r +:+ s) +:+ t = r +:+ s +:+ t.
Proof.
  induction r as [|a r IH]; [reflexivity|].
  change (String a ((r +:+ s) +:+ t) = String a (r +:+ s +:+ t)). by f_equal.
Qed.

Lemma append_empty_r (s : string) : s +:+ "" = s.
Proof.
  induction s as [|a s IH]; [reflexivity|].
  change (String a (s +:+ "") = String a s). by f_equal.
Qed.

Lemma formatFrames_emitted (rt : Runtime) (frames : list FrameInfo)
    (log : list logged) (text : string) :
  formatFrames rt (emittedFrames (allFrames rt) frames) log text
  = formatFrames rt frames log text.
Proof.
  revert log text. unfold emittedFrames.
  induction frames as [|frame frames IH]; intros log text; [reflexivity|].
  simpl. destruct (shouldEmitFrame (allFrames rt) frame) eqn:E; simpl.
  - rewrite filter_cons_True by done. simpl. rewrite E. simpl.
    destruct (locateFrame rt frame) as [e|[[warnings l] name]]; [reflexivity|].
    apply IH.
  - rewrite filter_cons_False by (rewrite E; done). apply IH.
Qed.

(** A hidden frame leaves no mark: [formatError] gives the same text, the
    same warnings and the same error on a trace and on the trace without
    its hidden frames. For a hidden frame no source is mapped and no plugin
    root or path is asked for. *)
Theorem formatError_skips_hidden (rt : Runtime) (error : Caught.JsError) :
  formatError rt error
  = formatError rt
      {| Caught.name := Caught.name error;
         Caught.message := Caught.message error;
         Caught.stack := emittedFrames (allFrames rt) (Caught.stack error) |}.
Proof.
  unfold formatError. simpl. rewrite formatFrames_emitted.
  by destruct error as [name [message|] stack].
Qed.

Lemma formatFrames_raw (rt : Runtime) (frames : list FrameInfo)
    (log : list logged) (text : string) :
  (∀ frame : FrameInfo,
     frame ∈ emittedFrames (allFrames rt) frames →
     javaFrame frame = true ∨ mapLineToSource rt = None) →
  formatFrames rt frames log text
  = (log ++ ((λ _, earlyStartup) <$>
             filter (λ f, javaFrame f = false) (emittedFrames (allFrames rt) frames)),
     inr (text +:+ String.concat "" (rawLine <$> emittedFrames (allFrames rt) frames))).
Proof.
  revert log text. unfold emittedFrames.
  induction frames as [|frame frames IH]; intros log text Hraw.
  { simpl. by rewrite app_nil_r, append_empty_r. }
  simpl. destruct (shouldEmitFrame (allFrames rt) frame) eqn:E; simpl.
  - rewrite filter_cons_True in Hraw |- * by done.
    assert (Hf : javaFrame frame = true ∨ mapLineToSource rt = None)
      by apply Hraw, list_elem_of_here.
    assert (Hrest : ∀ f, f ∈ filter (λ f, shouldEmitFrame (allFrames rt) f = true) frames →
                         javaFrame f = true ∨ mapLineToSource rt = None)
      by (intros f Hin; by apply Hraw, list_elem_of_further).
    assert (Htext : ∀ l : list string,
              (text +:+ rawLine frame) +:+ String.concat "" l
              = text +:+ String.concat "" (rawLine frame :: l)).
    { intros [|x l]; simpl; [by rewrite append_empty_r | by rewrite append_assoc]. }
    rewrite fmap_cons. unfold locateFrame.
    destruct (javaFrame frame) eqn:Hj.
    + rewrite (IH _ _ Hrest), filter_cons_False by (rewrite Hj; done).
      by rewrite app_nil_r, <- Htext.
    + destruct Hf as [Hf|Hf]; [done|]. rewrite Hf.
      rewrite (IH _ _ Hrest), filter_cons_True by done.
      by rewrite fmap_cons, <- app_assoc, <- Htext.
  - rewrite filter_cons_False in Hraw |- * by (rewrite E; done). by apply IH.
Qed.

(** Host frames, and every frame while there are no source maps, are shown
    as the trace has them, and then [formatError] raises nothing: the text
    is the header followed by one line for each frame that is not hidden, in
    the order of the trace. Without source maps every shown script frame
    logs the early startup warning once more; host frames log nothing. *)
Theorem formatError_raw (rt : Runtime) (error : Caught.JsError) :
  (∀ frame : FrameInfo,
     frame ∈ emittedFrames (allFrames rt) (Caught.stack error) →
     javaFrame frame = true ∨ mapLineToSource rt = None) →
  let shown := emittedFrames (allFrames rt) (Caught.stack error) in
  formatError rt error
  = ((λ _, earlyStartup) <$> filter (λ f, javaFrame f = false) shown,
     inr (formatHeader error +:+ String.concat "" (rawLine <$> shown))).
Proof.
  intros Hraw shown. unfold formatError. by rewrite formatFrames_raw.
Qed.

(** The demo trace at early startup: the hidden frame is left out and the
    script frame logs the warning. *)
Lemma formatError_raw_witness :
  formatError DemoTrace.early DemoTrace.error
  = ([earlyStartup],
     inr ("TypeError: x is undefined" +:+ newline +:+
          "        at dist/index.js main(index.js:7) [demo]" +:+ newline +:+
          "        at org.bukkit.Server start(Server.java:10) [demo]" +:+ newline)).
Proof.
  rewrite (formatError_raw DemoTrace.early DemoTrace.error); [reflexivity|].
  intros frame _. by right.
Defined.

Lemma formatFrames_ext (rt : Runtime) (g : FrameInfo → FrameInfo)
    (frames : list FrameInfo) (log : list logged) (text : string) :
  (∀ frame : FrameInfo,
     frame ∈ frames →
     shouldEmitFrame (allFrames rt) (g frame) = shouldEmitFrame (allFrames rt) frame
     ∧ (shouldEmitFrame (allFrames rt) frame = true →
        locateFrame rt (g frame) = locateFrame rt frame
        ∧ ∀ l name, formatLine (g frame) l name = formatLine frame l name)) →
  formatFrames rt (g <$> frames) log text = formatFrames rt frames log text.
Proof.
  revert log text.
  induction frames as [|frame frames IH]; intros log text Hg; [reflexivity|].
  rewrite fmap_cons. simpl.
  destruct (Hg frame (list_elem_of_here _ _)) as [-> Hshown].
  assert (Hrest : ∀ f, f ∈ frames → _) by (intros f Hin; by apply Hg, list_elem_of_further).
  destruct (shouldEmitFrame (allFrames rt) frame); simpl; [|by apply IH].
  destruct (Hshown eq_refl) as [-> Hline].
  destruct (locateFrame rt frame) as [e|[[warnings l] name]]; [reflexivity|].
  rewrite Hline. by apply IH.
Qed.

(** With source maps the file name of a script frame is never shown, in
    any trace, with host frames or without: the name between the brackets
    is the piece after the last slash of the mapped file, which always
    exists, so the fallback to [frame.fileName] is never taken, and the
    text, the warnings and the errors of [formatError] are the same
    whatever file names the script frames of the trace report. *)
Theorem formatError_script_fileName (rt : Runtime) (error : Caught.JsError)
    (rename : FrameInfo → string) :
  is_Some (mapLineToSource rt) →
  formatError rt
    {| Caught.name := Caught.name error;
       Caught.message := Caught.message error;
       Caught.stack :=
         (λ f, if javaFrame f then f else setFileName (rename f) f)
           <$> Caught.stack error |}
  = formatError rt error
  ∧ ∀ (frame : FrameInfo) (warnings : list logged) (l : SourceLine.t) (name : string),
      javaFrame frame = false →
      locateFrame rt frame = inr (warnings, l, name) →
      warnings = [] ∧ last (Js.split "/" (SourceLine.file l)) = Some name.
Proof.
  intros [map Hmap]. split.
  - unfold formatError. simpl.
    replace (formatHeader {| Caught.name := _ |}) with (formatHeader error)
      by (by destruct error as [n [m|] s]).
    apply formatFrames_ext. intros frame Hin.
    destruct (javaFrame frame) eqn:Hscript; [by split|].
    split; [reflexivity|].
    intros _. split; [|reflexivity].
    unfold locateFrame. simpl. rewrite Hscript, Hmap.
    destruct (map _ _ _) as [e|mapped]; [reflexivity|].
    destruct (getPluginRoot rt _) as [e|root]; [reflexivity|].
    destruct (Path_relativize rt _ _) as [e|relative]; [reflexivity|].
    set (file := if Js.startsWith _ _ then _ else _).
    destruct (last (Js.split "/" file)) as [piece|] eqn:Hlast; [reflexivity|].
    apply last_None in Hlast. by apply split_nonempty in Hlast.
  - intros frame warnings l name Hscript. unfold locateFrame.
    rewrite Hscript, Hmap.
    destruct (map _ _ _) as [e|mapped]; [discriminate|].
    destruct (getPluginRoot rt _) as [e|root]; [discriminate|].
    destruct (Path_relativize rt _ _) as [e|relative]; [discriminate|].
    set (file := if Js.startsWith _ _ then _ else _).
    destruct (last (Js.split "/" file)) as [piece|] eqn:Hlast.
    + intros [= <- <- <-]. by split.
    + apply last_None in Hlast. by apply split_nonempty in Hlast.
Qed.

(** The demo trace, which has a script frame, a hidden frame and a host
    frame, with source maps: one leading [../] is cut from the mapped file
    and the name shown for the script frame is its last piece, whatever
    file name the frame reports. *)
Lemma formatError_script_fileName_witness :
  formatError DemoTrace.mapped
    {| Caught.name := "TypeError"; Caught.message := Some "x is undefined";
       Caught.stack := [setFileName "other.js" DemoTrace.scriptFrame;
                        DemoTrace.hiddenFrame; DemoTrace.hostFrame] |}
  = formatError DemoTrace.mapped DemoTrace.error
  ∧ formatError DemoTrace.mapped DemoTrace.error
    = ([], inr ("TypeError: x is undefined" +:+ newline +:+
                "        at src/index.ts main(index.ts:3) [demo]" +:+ newline +:+
                "        at org.bukkit.Server start(Server.java:10) [demo]" +:+ newline)).
Proof.
  split; [|reflexivity].
  exact (proj1 (formatError_script_fileName DemoTrace.mapped DemoTrace.error
                  (λ _, "other.js") (mk_is_Some _ _ eq_refl))).
Defined.

Lemma locateFrame_warnings (rt : Runtime) (frame : FrameInfo)
    (warnings : list logged) (l : SourceLine.t) (name : string) :
  locateFrame rt frame = inr (warnings, l, name) →
  warnings = [] ∨ warnings = [earlyStartup].
Proof.
  unfold locateFrame. destruct (javaFrame frame); [intros [= <- _ _]; by left|].
  destruct (mapLineToSource rt) as [map|]; [|intros [= <- _ _]; by right].
  destruct (map _ _ _) as [e|mapped]; [discriminate|].
  destruct (getPluginRoot rt _) as [e|root]; [discriminate|].
  destruct (Path_relativize rt _ _) as [e|relative]; [discriminate|].
  intros [= <- _ _]. by left.
Qed.

Lemma formatFrames_log (rt : Runtime) (frames : list FrameInfo)
    (log log' : list logged) (text : string) r :
  formatFrames rt frames log text = (log', r) →
  ∃ n : nat, n ≤ length frames ∧ log' = log ++ replicate n earlyStartup.
Proof.
  revert log text.
  induction frames as [|frame frames IH]; intros log text; simpl.
  { intros [= <- _]. exists 0. by rewrite app_nil_r. }
  destruct (shouldEmitFrame (allFrames rt) frame); simpl.
  - destruct (locateFrame rt frame) as [e|[[warnings l] name]] eqn:E.
    + intros [= <- _]. exists 0. split; [lia | by rewrite app_nil_r].
    + intros H. apply IH in H as (n & Hn & ->).
      apply locateFrame_warnings in E as [-> | ->].
      * exists n. split; [lia | by rewrite app_nil_r].
      * exists (S n). split; [lia | by rewrite <- app_assoc].
  - intros H. apply IH in H as (n & Hn & ->). exists n. split; [lia | done].
Qed.

(** [handleError] logs nothing and gives [false] when nothing was caught.
    When an error was caught it logs the message first, as an error; then
    come only early startup warnings, at most one for each frame of the
    trace; then, unless formatting raised, the formatted trace as one error
    entry, and the result is [true]. It never gives [false] after logging. *)
Theorem handleError_log (rt : Runtime) (caught : option Caught.JsError)
    (msg : string) (log : list logged) (r : JsError + bool) :
  handleError rt caught msg = (log, r) →
  (caught = None ∧ log = [] ∧ r = inr false)
  ∨ (∃ (error : Caught.JsError) (n : nat),
       caught = Some error
       ∧ n ≤ length (Caught.stack error)
       ∧ ((∃ text : string,
             formatError rt error = (replicate n earlyStartup, inr text)
             ∧ log = LogError msg :: replicate n earlyStartup ++ [LogError text]
             ∧ r = inr true)
          ∨ (∃ e : JsError,
               formatError rt error = (replicate n earlyStartup, inl e)
               ∧ log = LogError msg :: replicate n earlyStartup
               ∧ r = inl e))).
Proof.
  destruct caught as [error|]; simpl; [|intros [= <- <-]; by left].
  destruct (formatError rt error) as [warnings r'] eqn:E.
  pose proof E as E'. unfold formatError in E'.
  apply formatFrames_log in E' as (n & Hn & Hw). simpl in Hw. subst warnings.
  destruct r' as [e|text]; intros [= <- <-]; right; exists error, n;
    (split; [reflexivity|]); (split; [exact Hn|]).
  - right. by exists e.
  - left. by exists text.
Qed.

(** The demo trace at early startup. *)
Lemma handleError_log_witness :
  handleError DemoTrace.early (Some DemoTrace.error) "Plugin failed"
  = ([LogError "Plugin failed"; earlyStartup;
      LogError ("TypeError: x is undefined" +:+ newline +:+
                "        at dist/index.js main(index.js:7) [demo]" +:+ newline +:+
                "        at org.bukkit.Server start(Server.java:10) [demo]" +:+ newline)],
     inr true)
  ∧ handleError DemoTrace.early None "Plugin failed" = ([], inr false).
Proof.
  split; [|reflexivity].
  destruct (handleError DemoTrace.early (Some DemoTrace.error) "Plugin failed")
    as [log r] eqn:E.
  destruct (handleError_log _ _ _ _ _ E) as [(H & _)|_]; [discriminate H|].
  vm_compute in E. injection E as <- <-. reflexivity.
Defined.

(** ** The test runner *)

Lemma prefix_append (p s : string) :
  String.prefix p s = true ↔ ∃ b : string, s = p +:+ b.
Proof.
  revert s. induction p as [|c p IH]; intros s.
  - split; [intros _; by exists s | by destruct s].
  - destruct s as [|d s]; [split; [discriminate | intros [b H]; discriminate]|].
    cbn. destruct (ascii_dec c d) as [->|Hne].
    + rewrite IH. split; intros [b H]; exists b.
      * change (String d s = String d (p +:+ b)). by rewrite H.
      * change (String d s = String d (p +:+ b)) in H. by injection H.
    + split; [discriminate|]. intros [b H].
      change (String d s = String c (p +:+ b)) in H. injection H as H _. done.
Qed.

(** [JsString.matches s p] says that the text [p] occurs somewhere in
    [s]. *)
Lemma matches_occurs (s p : string) :
  JsString.matches s p = true ↔ ∃ a b : string, s = a +:+ p +:+ b.
Proof.
  induction s as [|c s IH].
  - change (JsString.matches "" p) with (String.prefix p "" || false).
    rewrite orb_false_r, prefix_append. split.
    + intros [b H]. by exists "", b.
    + intros (a & b & H). destruct a; [by exists b | discriminate H].
  - change (JsString.matches (String c s) p)
      with (String.prefix p (String c s) || JsString.matches s p).
    rewrite orb_true_iff, prefix_append, IH. split.
    + intros [[b H]|(a & b & H)]; [by exists "", b | exists (String c a), b; by rewrite H].
    + intros (a & b & H). destruct a as [|d a].
      * left. by exists b.
      * right. injection H as _ H. by exists a, b.
Qed.

Lemma walk_regularFiles {S : Type}
    (callback : TestRunner.File → S → S) :
  ∀ (file : TestRunner.File) (s : S),
    TestRunner.walk file callback s
    = (foldl (λ s f, callback f s) s (TestRunner.regularFiles file).1,
       (TestRunner.regularFiles file).2)
    ∧ Forall (λ f, ∃ name path, f = TestRunner.Regular name path)
        (TestRunner.regularFiles file).1.
Proof.
  fix IH 1. intros [name path|name path [files|]] s.
  - split; [reflexivity|]. repeat constructor. by exists name, path.
  - simpl. revert s. induction files as [|f fs IHfs]; intros s.
    + split; [reflexivity | constructor].
    + destruct (IH f s) as [Hw Hr]. rewrite Hw.
      destruct (TestRunner.regularFiles f) as [l raised]. simpl in *.
      destruct raised; [by split|].
      destruct (IHfs (foldl (λ s f, callback f s) s l)) as [Hw' Hr'].
      rewrite Hw'.
      destruct ((fix each (fs0 : list TestRunner.File) : list TestRunner.File * bool :=
                   match fs0 with
                   | [] => ([], false)
                   | f0 :: fs' =>
                       let '(l0, raised) := TestRunner.regularFiles f0 in
                       if raised then (l0, true)
                       else let '(l', raised') := each fs' in (l0 ++ l', raised')
                   end) fs) as [l' raised']. simpl in *.
      split; [by rewrite foldl_app | by apply Forall_app].
  - split; [reflexivity | constructor].
Qed.

Lemma collect_isTest (f : TestRunner.File) (acc : list TestRunner.File) :
  TestRunner.collect f acc = if TestRunner.isTest f then acc ++ [f] else acc.
Proof.
  unfold TestRunner.collect, TestRunner.isTest.
  by destruct (JsString.matches (TestRunner.getName f) ".test.js"),
              (JsString.matches (TestRunner.getPath f) "node_modules").
Qed.

Lemma foldl_collect (l acc : list TestRunner.File) :
  foldl (λ acc f, TestRunner.collect f acc) acc l
  = acc ++ filter (λ f, TestRunner.isTest f = true) l.
Proof.
  revert acc. induction l as [|f l IH]; intros acc; simpl.
  - by rewrite app_nil_r.
  - rewrite IH, collect_isTest. destruct (TestRunner.isTest f) eqn:E.
    + rewrite filter_cons_True by done. by rewrite <- app_assoc.
    + by rewrite filter_cons_False by (rewrite E; done).
Qed.

(** [walk] hands the callback the files that are not directories, each
    once, depth first and left to right, and never a directory; an empty
    directory gives nothing. When a directory cannot be listed the walk
    raises there, after the callback has seen the files before it. *)
Theorem walk_visits_regular_files {S : Type}
    (callback : TestRunner.File → S → S) (file : TestRunner.File) (s : S) :
  TestRunner.walk file callback s
  = (foldl (λ s f, callback f s) s (TestRunner.regularFiles file).1,
     (TestRunner.regularFiles file).2)
  ∧ Forall (λ f, ∃ name path, f = TestRunner.Regular name path)
      (TestRunner.regularFiles file).1
  ∧ ∀ name path : string,
      TestRunner.walk (TestRunner.Directory name path (Some [])) callback s
      = (s, false).
Proof.
  destruct (walk_regularFiles callback file s) as [H1 H2]. by repeat split.
Qed.

(** The test files that [runTests] collects are, in the order of the walk,
    the files that are not directories whose name has [.test.js] somewhere
    in it (not only at its end) and whose path has [node_modules] nowhere in
    it (not only as a directory name). *)
Theorem testFiles_collected (baseDir : TestRunner.File) :
  TestRunner.testFiles baseDir
  = (filter (λ f, TestRunner.isTest f = true) (TestRunner.regularFiles baseDir).1,
     (TestRunner.regularFiles baseDir).2)
  ∧ ∀ f : TestRunner.File,
      TestRunner.isTest f = true ↔
        (∃ a b : string, TestRunner.getName f = a +:+ ".test.js" +:+ b)
        ∧ ¬ ∃ a b : string, TestRunner.getPath f = a +:+ "node_modules" +:+ b.
Proof.
  split.
  - unfold TestRunner.testFiles.
    destruct (walk_regularFiles TestRunner.collect baseDir []) as [-> _].
    by rewrite foldl_collect.
  - intros f. unfold TestRunner.isTest.
    rewrite andb_true_iff, negb_true_iff.
    rewrite <- (matches_occurs (TestRunner.getName f)),
            <- (matches_occurs (TestRunner.getPath f)).
    by rewrite not_true_iff_false.
Qed.

(** In the demo directory: [report.test.json] is collected, [b.test.js]
    under [node_modules_old] is not. *)
Lemma testFiles_collected_witness :
  TestRunner.testFiles TestRunner.demo
  = ([ TestRunner.Regular "a.test.js" "js/a.test.js";
       TestRunner.Regular "report.test.json" "js/lib/report.test.json";
       TestRunner.Regular "z.test.js" "js/z.test.js" ], false).
Proof.
  rewrite (proj1 (testFiles_collected TestRunner.demo)). reflexivity.
Defined.
